(** * STTS22H temperature sensor driver (stts22h.c / stts22h.h)

    A shallow embedding of the non-blocking I2C driver and the
    properties of its transaction state machine, register decoder and
    threshold encoder.

    - C [float] is IEEE-754 binary32, modelled with the Standard
      Library's [spec_float] at precision 24 and maximal exponent 128.
    - [uint8_t] and [int] values are integers of [Z].
    - The I2C transport (i2c.h) is an external collaborator: it is an
      interface ([I2C]) over an abstract bus store, and every transfer
      the driver requests is recorded in the world's list of issued
      transfers. *)

From Stdlib Require Import ZArith List Bool Lia.
From Stdlib Require Import Floats.SpecFloat.
Import ListNotations.

Local Open Scope Z_scope.

(** ** C [float]: IEEE-754 binary32 *)

Module F32.

Definition prec : Z := 24.
Definition emax : Z := 128.

Definition float : Type := spec_float.

(** [(float) z] for an integer [z]: round to nearest, ties to even. *)
Definition of_Z (z : Z) : float := binary_normalize prec emax z 0 false.

Definition add : float -> float -> float := SFadd prec emax.
Definition mul : float -> float -> float := SFmul prec emax.
Definition div : float -> float -> float := SFdiv prec emax.
Definition opp : float -> float := SFopp.
Definition ltb : float -> float -> bool := SFltb.
Definition leb : float -> float -> bool := SFleb.
(** C's [a > b] is [b < a]. *)
Definition gtb (a b : float) : bool := SFltb b a.

(** A decimal literal [n/d] with [n] and [d] below [2^24]: both are
    exact in binary32 and the division rounds correctly, so this is the
    binary32 number nearest to the decimal. *)
Definition lit (n d : Z) : float := div (of_Z n) (of_Z d).

(** Truncation toward zero of a finite number; [None] for an infinity
    or a NaN. *)
Definition trunc (f : float) : option Z :=
  match f with
  | S754_zero _ => Some 0
  | S754_finite s m e =>
      let a := if 0 <=? e then Z.pos m * 2 ^ e else Z.pos m / 2 ^ (- e) in
      Some (if s then - a else a)
  | S754_infinity _ | S754_nan => None
  end.

(** [(uint8_t) f]: the value truncated toward zero.  C defines the
    conversion only when the truncated value is within 0..255; outside
    of that range (and for an infinity or a NaN) the behaviour is
    undefined, and the model keeps the low eight bits, respectively
    0. *)
Definition to_uint8 (f : float) : Z :=
  match trunc f with
  | Some z => z mod 256
  | None => 0
  end.

(** C's [roundf]: the nearest integer, halves away from zero. *)
Definition round (f : float) : option Z :=
  match f with
  | S754_zero _ => Some 0
  | S754_finite s m e =>
      let a := if 0 <=? e then Z.pos m * 2 ^ e
               else (2 * Z.pos m + 2 ^ (- e)) / (2 * 2 ^ (- e)) in
      Some (if s then - a else a)
  | S754_infinity _ | S754_nan => None
  end.

(** [f] is the number [num / den] rounded to binary32 within half a
    unit in the last place: [f = ± m * 2^e] with a 24-bit mantissa and
    [|m * 2^e * den - num| * 2 <= 2^e * den]. *)
Definition nearest_to (num den : Z) (f : float) : Prop :=
  match f with
  | S754_zero _ => num = 0
  | S754_finite s m e =>
      e < 0 /\ 2 ^ 23 <= Z.pos m < 2 ^ 24 /\
      let v := if s then - Z.pos m else Z.pos m in
      2 * Z.abs (v * den - num * 2 ^ (- e)) <= den
  | _ => False
  end.

End F32.

(** ** Register map (stts22h.c) *)

Definition WHOAMI : Z := 0xA0.

Definition WHOAMI_ADDR : Z := 0x01.
Definition TEMP_H_LIMIT_ADDR : Z := 0x02.
Definition TEMP_L_LIMIT_ADDR : Z := 0x03.
Definition CTRL_ADDR : Z := 0x04.
Definition STATUS_ADDR : Z := 0x05.
Definition TEMP_L_OUT_ADDR : Z := 0x06.
Definition TEMP_H_OUT_ADDR : Z := 0x07.

(** ** Device state (stts22h.h) *)

(** [I2CDef *]: an address, [NULL] is 0. *)
Definition I2CDef_ptr : Type := Z.
Definition NULL : I2CDef_ptr := 0.

(** [STTS22H_Def].  The unions [settings] and [status] are kept as their
    [full] byte; the bit-fields are read from it. *)
Record STTS22H_Def : Type := mkSTTS22H {
  isInit : bool;
  isConnected : bool;
  isReading : bool;
  addrSent : bool;
  regAddr : Z;
  dataSize : Z;
  settings : Z;
  status : Z;
  temp : F32.float;
  devAddr : Z;
  i2c : I2CDef_ptr
}.

(** Bit-fields of [STTS22H_Status_Def], allocated from the least
    significant bit as the datasheet numbers them: busy is bit 0,
    over_thh bit 1, under_thl bit 2. *)
Definition status_busy (full : Z) : bool := Z.testbit full 0.
Definition status_over_thh (full : Z) : bool := Z.testbit full 1.
Definition status_under_thl (full : Z) : bool := Z.testbit full 2.

Definition set_isInit (v : bool) (s : STTS22H_Def) : STTS22H_Def :=
  mkSTTS22H v (isConnected s) (isReading s) (addrSent s) (regAddr s)
    (dataSize s) (settings s) (status s) (temp s) (devAddr s) (i2c s).
Definition set_isConnected (v : bool) (s : STTS22H_Def) : STTS22H_Def :=
  mkSTTS22H (isInit s) v (isReading s) (addrSent s) (regAddr s)
    (dataSize s) (settings s) (status s) (temp s) (devAddr s) (i2c s).
Definition set_isReading (v : bool) (s : STTS22H_Def) : STTS22H_Def :=
  mkSTTS22H (isInit s) (isConnected s) v (addrSent s) (regAddr s)
    (dataSize s) (settings s) (status s) (temp s) (devAddr s) (i2c s).
Definition set_addrSent (v : bool) (s : STTS22H_Def) : STTS22H_Def :=
  mkSTTS22H (isInit s) (isConnected s) (isReading s) v (regAddr s)
    (dataSize s) (settings s) (status s) (temp s) (devAddr s) (i2c s).
Definition set_regAddr (v : Z) (s : STTS22H_Def) : STTS22H_Def :=
  mkSTTS22H (isInit s) (isConnected s) (isReading s) (addrSent s) v
    (dataSize s) (settings s) (status s) (temp s) (devAddr s) (i2c s).
Definition set_dataSize (v : Z) (s : STTS22H_Def) : STTS22H_Def :=
  mkSTTS22H (isInit s) (isConnected s) (isReading s) (addrSent s) (regAddr s)
    v (settings s) (status s) (temp s) (devAddr s) (i2c s).
Definition set_settings (v : Z) (s : STTS22H_Def) : STTS22H_Def :=
  mkSTTS22H (isInit s) (isConnected s) (isReading s) (addrSent s) (regAddr s)
    (dataSize s) v (status s) (temp s) (devAddr s) (i2c s).
Definition set_status (v : Z) (s : STTS22H_Def) : STTS22H_Def :=
  mkSTTS22H (isInit s) (isConnected s) (isReading s) (addrSent s) (regAddr s)
    (dataSize s) (settings s) v (temp s) (devAddr s) (i2c s).
Definition set_temp (v : F32.float) (s : STTS22H_Def) : STTS22H_Def :=
  mkSTTS22H (isInit s) (isConnected s) (isReading s) (addrSent s) (regAddr s)
    (dataSize s) (settings s) (status s) v (devAddr s) (i2c s).
Definition set_devAddr (v : Z) (s : STTS22H_Def) : STTS22H_Def :=
  mkSTTS22H (isInit s) (isConnected s) (isReading s) (addrSent s) (regAddr s)
    (dataSize s) (settings s) (status s) (temp s) v (i2c s).
Definition set_i2c (v : I2CDef_ptr) (s : STTS22H_Def) : STTS22H_Def :=
  mkSTTS22H (isInit s) (isConnected s) (isReading s) (addrSent s) (regAddr s)
    (dataSize s) (settings s) (status s) (temp s) (devAddr s) v.

(** ** The I2C transport (i2c.h), an external interface *)

(** The transport's functions act on a bus store of type [Bus] (the
    memory behind every [I2CDef *]).  [I2C_SUCCESS] and
    [I2C_NUMBER_ERRORS] are the constants of i2c.h that the driver
    uses.  The activity probes and the receive buffer only observe the
    store. *)
Class I2C (Bus : Type) : Type := {
  I2C_SUCCESS : Z;
  I2C_NUMBER_ERRORS : Z;
  I2C_writeData : I2CDef_ptr -> Z -> list Z -> bool -> Bus -> Z * Bus;
  I2C_readData : I2CDef_ptr -> Z -> Z -> Bus -> Z * Bus;
  I2C_isReading : I2CDef_ptr -> Bus -> bool;
  I2C_isWriting : I2CDef_ptr -> Bus -> bool;
  I2C_isFailed : I2CDef_ptr -> Bus -> bool;
  I2C_getReceivedData : I2CDef_ptr -> Bus -> list Z
}.

(** A transfer requested from the transport. *)
Inductive Transfer : Type :=
| WriteTransfer (handle : I2CDef_ptr) (addr : Z) (bytes : list Z) (stop : bool)
| ReadTransfer (handle : I2CDef_ptr) (addr : Z) (size : Z).

(** The world outside the device structure: the bus store and the
    transfers requested so far, oldest first. *)
Record World (Bus : Type) : Type := mkWorld {
  bus : Bus;
  issued : list Transfer
}.
Arguments mkWorld {Bus} _ _.
Arguments bus {Bus} _.
Arguments issued {Bus} _.

(** ** The driver (stts22h.c) *)

Section Driver.

Context {Bus : Type} {transport : I2C Bus}.

(** [enum STTS22H_Errors] *)
Definition STTS22H_SUCCESS : Z := 0.
Definition STTS22H_NOT_INIT : Z := - I2C_NUMBER_ERRORS - 1.
Definition STTS22H_WRONG_DATA : Z := - I2C_NUMBER_ERRORS - 2.
Definition STTS22H_BUSY : Z := - I2C_NUMBER_ERRORS - 3.

(** The two transfer requests, recorded in the world. *)
Definition writeData (h : I2CDef_ptr) (addr : Z) (bytes : list Z)
    (stop : bool) (w : World Bus) : Z * World Bus :=
  let (result, b) := I2C_writeData h addr bytes stop (bus w) in
  (result, mkWorld b (issued w ++ [WriteTransfer h addr bytes stop])).

Definition readData (h : I2CDef_ptr) (addr : Z) (size : Z)
    (w : World Bus) : Z * World Bus :=
  let (result, b) := I2C_readData h addr size (bus w) in
  (result, mkWorld b (issued w ++ [ReadTransfer h addr size])).

(** [STTS22H_init]; [stts] is [None] for a null device pointer. *)
Definition STTS22H_init (stts : option STTS22H_Def) (i2c_ : I2CDef_ptr)
    (addr : Z) (w : World Bus) : Z * option STTS22H_Def * World Bus :=
  match stts with
  | None => (STTS22H_WRONG_DATA, stts, w)
  | Some s =>
      if (i2c_ =? NULL) || (addr =? 0) then (STTS22H_WRONG_DATA, stts, w)
      else
        let s := set_i2c i2c_ s in
        let s := set_devAddr addr s in
        let s := set_temp (F32.opp (F32.lit 27315 100)) s in
        let s := set_isInit true s in
        (STTS22H_SUCCESS, Some s, w)
  end.

Definition STTS22H_checkConnection (stts : STTS22H_Def) (w : World Bus)
    : Z * STTS22H_Def * World Bus :=
  if negb (isInit stts) then (STTS22H_NOT_INIT, stts, w)
  else if isReading stts then (STTS22H_BUSY, stts, w)
  else
    let stts := set_regAddr WHOAMI_ADDR stts in
    let stts := set_dataSize 1 stts in
    let (result, w) :=
      writeData (i2c stts) (devAddr stts) [regAddr stts] false w in
    if result =? I2C_SUCCESS then (result, set_isReading true stts, w)
    else (result, stts, w).

Definition STTS22H_isConnected (stts : STTS22H_Def) : bool :=
  isConnected stts.

Definition STTS22H_setting (stts : STTS22H_Def) (controlReg : Z)
    (w : World Bus) : Z * STTS22H_Def * World Bus :=
  if negb (isInit stts) then (STTS22H_NOT_INIT, stts, w)
  else
    let data := [CTRL_ADDR; controlReg] in
    let (result, w) := writeData (i2c stts) (devAddr stts) data true w in
    if result =? I2C_SUCCESS then (result, set_settings controlReg stts, w)
    else (result, stts, w).

Definition calculateThreshold (value : F32.float) : Z :=
  let value := F32.div value (F32.lit 64 100) in
  let value := F32.add value (F32.of_Z 63) in
  F32.to_uint8 value.

Definition STTS22H_setLimits (stts : STTS22H_Def) (minTemp maxTemp : F32.float)
    (isSetLimits : bool) (w : World Bus) : Z * STTS22H_Def * World Bus :=
  if negb (isInit stts) then (STTS22H_NOT_INIT, stts, w)
  else if F32.ltb minTemp (F32.opp (F32.lit 395 10))
          || F32.gtb maxTemp (F32.lit 1225 10)
  then (STTS22H_WRONG_DATA, stts, w)
  else
    let data :=
      if isSetLimits
      then [TEMP_H_LIMIT_ADDR; calculateThreshold maxTemp;
            calculateThreshold minTemp]
      else [TEMP_H_LIMIT_ADDR; 0; 0] in
    let (result, w) := writeData (i2c stts) (devAddr stts) data true w in
    (result, stts, w).

Definition STTS22H_measure (stts : STTS22H_Def) (w : World Bus)
    : Z * STTS22H_Def * World Bus :=
  if negb (isInit stts) then (STTS22H_NOT_INIT, stts, w)
  else if isReading stts then (STTS22H_BUSY, stts, w)
  else
    let stts := set_regAddr STATUS_ADDR stts in
    let stts := set_dataSize 3 stts in
    let (result, w) :=
      writeData (i2c stts) (devAddr stts) [regAddr stts] false w in
    if result =? I2C_SUCCESS then (result, set_isReading true stts, w)
    else (result, stts, w).

Definition STTS22H_getTemp_C (stts : STTS22H_Def) : F32.float := temp stts.

Definition STTS22H_getTemp_F (stts : STTS22H_Def) : F32.float :=
  let value := temp stts in
  F32.add (F32.of_Z 32) (F32.div (F32.mul value (F32.of_Z 9)) (F32.of_Z 5)).

Definition STTS22H_isOverheated (stts : STTS22H_Def) : bool :=
  status_over_thh (status stts).

Definition STTS22H_isOvercooled (stts : STTS22H_Def) : bool :=
  status_under_thl (status stts).

(** [int32_t temp = ((int32_t) hOut << 8) | lOut], then the sign
    extension from 16 bits and the division by [100.0f]. *)
Definition calculateTemp (hOut lOut : Z) : F32.float :=
  let temp := Z.lor (Z.shiftl hOut 8) lOut in
  let temp :=
    if Z.shiftl 1 15 <=? temp then temp - Z.shiftl 1 16 else temp in
  F32.div (F32.of_Z temp) (F32.of_Z 100).

(** [data[i]] of the receive buffer, which the transport fills with at
    least the bytes requested; past the end of the list the model reads
    0. *)
Definition byte_at (data : list Z) (i : nat) : Z := nth i data 0.

(** The [switch (stts->regAddr)] of [STTS22H_update]. *)
Definition decode (stts : STTS22H_Def) (data : list Z) : STTS22H_Def :=
  if regAddr stts =? WHOAMI_ADDR then
    set_isConnected (WHOAMI =? byte_at data 0) stts
  else if regAddr stts =? TEMP_H_LIMIT_ADDR then stts
  else if regAddr stts =? CTRL_ADDR then stts
  else if regAddr stts =? STATUS_ADDR then
    let stts := set_status (byte_at data 0) stts in
    if negb (status_busy (status stts))
    then set_temp (calculateTemp (byte_at data 2) (byte_at data 1)) stts
    else stts
  else if regAddr stts =? TEMP_L_OUT_ADDR then stts
  else stts.

Definition STTS22H_update (stts : STTS22H_Def) (w : World Bus)
    : STTS22H_Def * World Bus :=
  if negb (isInit stts) then (stts, w)
  else if negb (isReading stts) then (stts, w)
  else if I2C_isReading (i2c stts) (bus w) || I2C_isWriting (i2c stts) (bus w)
  then (stts, w)
  else if addrSent stts then
    let stts := set_addrSent false stts in
    let stts := set_isReading false stts in
    if negb (I2C_isFailed (i2c stts) (bus w)) then
      let data := I2C_getReceivedData (i2c stts) (bus w) in
      (decode stts data, w)
    else (stts, w)
  else
    let (result, w) := readData (i2c stts) (devAddr stts) (dataSize stts) w in
    if result =? I2C_SUCCESS then (set_addrSent true stts, w)
    else (set_isReading false stts, w).

End Driver.

(** ** Vocabulary of the properties *)

(** The bookkeeping of the transaction in flight: busy, phase, pending
    register and pending byte count. *)
Definition bookkeeping (s : STTS22H_Def) : bool * bool * Z * Z :=
  (isReading s, addrSent s, regAddr s, dataSize s).

(** A 16-bit pattern read as a two's-complement integer. *)
Definition twos_complement16 (raw : Z) : Z :=
  if 32768 <=? raw then raw - 65536 else raw.

(** The sum that [calculateThreshold] converts to a byte. *)
Definition threshold_sum (value : F32.float) : F32.float :=
  F32.add (F32.div value (F32.lit 64 100)) (F32.of_Z 63).

(** The threshold code with the sum rounded to the nearest integer
    instead of truncated: [round(value / 0.64 + 63)] kept as a byte. *)
Definition calculateThreshold_rounded (value : F32.float) : Z :=
  match F32.round (threshold_sum value) with
  | Some z => z mod 256
  | None => 0
  end.

(** [n] is the finite number [f] with its fraction dropped: [n <= f < n + 1]
    for a positive [f], [n - 1 < f <= n] for a negative one. *)
Definition truncation_of (n : Z) (f : F32.float) : Prop :=
  match f with
  | S754_zero _ => n = 0
  | S754_finite s m e =>
      if 0 <=? e then n = (if s then - (Z.pos m * 2 ^ e) else Z.pos m * 2 ^ e)
      else if s then (- n) * 2 ^ (- e) <= Z.pos m < (- n + 1) * 2 ^ (- e)
      else n * 2 ^ (- e) <= Z.pos m < (n + 1) * 2 ^ (- e)
  | _ => False
  end.

(** Decidable form of [F32.nearest_to]. *)
Definition nearest_tob (num den : Z) (f : F32.float) : bool :=
  match f with
  | S754_zero _ => num =? 0
  | S754_finite s m e =>
      (e <? 0) && (2 ^ 23 <=? Z.pos m) && (Z.pos m <? 2 ^ 24) &&
      (2 * Z.abs ((if s then - Z.pos m else Z.pos m) * den - num * 2 ^ (- e))
       <=? den)
  | _ => false
  end.

(** Every pair of register bytes, checked one by one. *)
Definition all_bytes : list Z := map Z.of_nat (seq 0 256).

Definition decode_check (h l : Z) : bool :=
  (Z.lor (Z.shiftl h 8) l =? h * 256 + l) &&
  nearest_tob (twos_complement16 (h * 256 + l)) 100 (calculateTemp h l).

Section Reachability.

Context {Bus : Type} {transport : I2C Bus}.

(** A device structure before [STTS22H_init]: no flag of the state
    machine is set (a structure in static storage is zeroed). *)
Definition blank (s : STTS22H_Def) : Prop :=
  isInit s = false /\ isReading s = false /\ addrSent s = false.

(** The device states the driver produces from a blank structure, the
    bus store being arbitrary at every call. *)
Inductive Reachable : STTS22H_Def -> Prop :=
| reach_blank s : blank s -> Reachable s
| reach_init s h a w s' :
    Reachable s ->
    snd (fst (STTS22H_init (Some s) h a w)) = Some s' ->
    Reachable s'
| reach_checkConnection s w :
    Reachable s -> Reachable (snd (fst (STTS22H_checkConnection s w)))
| reach_setting s c w :
    Reachable s -> Reachable (snd (fst (STTS22H_setting s c w)))
| reach_setLimits s lo hi on w :
    Reachable s -> Reachable (snd (fst (STTS22H_setLimits s lo hi on w)))
| reach_measure s w :
    Reachable s -> Reachable (snd (fst (STTS22H_measure s w)))
| reach_update s w :
    Reachable s -> Reachable (fst (STTS22H_update s w)).

(** The transport is idle: neither a read nor a write is in progress. *)
Definition transport_idle (h : I2CDef_ptr) (b : Bus) : Prop :=
  I2C_isReading h b = false /\ I2C_isWriting h b = false.

(** The transport's result codes are its own: never one of the
    driver's three error codes, which the header places below
    [- I2C_NUMBER_ERRORS]. *)
Definition transport_codes_own : Prop :=
  forall h a bytes stop b,
    - I2C_NUMBER_ERRORS <= fst (I2C_writeData h a bytes stop b).

End Reachability.

(** ** A simulated transport *)

(** A bus that accepts a transfer whenever the handle is not null and
    nothing is in progress. *)
Module Sim.

Record SimBus : Type := mkSimBus {
  writing : bool;
  reading : bool;
  failed : bool;
  received : list Z
}.

Definition ERROR_NULL : Z := -1.
Definition ERROR_BUSY : Z := -2.

Definition write (h : I2CDef_ptr) (addr : Z) (bytes : list Z) (stop : bool)
    (b : SimBus) : Z * SimBus :=
  if h =? NULL then (ERROR_NULL, b)
  else if writing b || reading b then (ERROR_BUSY, b)
  else (0, mkSimBus true false false (received b)).

Definition read (h : I2CDef_ptr) (addr : Z) (size : Z) (b : SimBus)
    : Z * SimBus :=
  if h =? NULL then (ERROR_NULL, b)
  else if writing b || reading b then (ERROR_BUSY, b)
  else (0, mkSimBus false true false (received b)).

#[global] Instance transport : I2C SimBus := {|
  I2C_SUCCESS := 0;
  I2C_NUMBER_ERRORS := 2;
  I2C_writeData := write;
  I2C_readData := read;
  I2C_isReading := fun _ b => reading b;
  I2C_isWriting := fun _ b => writing b;
  I2C_isFailed := fun _ b => failed b;
  I2C_getReceivedData := fun _ b => received b
|}.

Definition idle_bus : SimBus := mkSimBus false false false [].
Definition failed_bus : SimBus := mkSimBus false false true [].
Definition bus_with (rx : list Z) : SimBus := mkSimBus false false false rx.

Definition idle_world : World SimBus := mkWorld idle_bus [].

(** A zeroed structure, and the device [STTS22H_init] makes of it at
    bus address 0x3C. *)
Definition zeroed : STTS22H_Def :=
  mkSTTS22H false false false false 0 0 0 0 (S754_zero false) 0 NULL.

Definition device : STTS22H_Def :=
  mkSTTS22H true false false false 0 0 0 0
    (S754_finite true 8950579 (-15)) 0x3C 1.

(** The device with a measurement in flight, before and after the
    read request. *)
Definition measuring : STTS22H_Def :=
  mkSTTS22H true false true false STATUS_ADDR 3 0 0
    (S754_finite true 8950579 (-15)) 0x3C 1.

Definition reading_back : STTS22H_Def :=
  mkSTTS22H true false true true STATUS_ADDR 3 0 0
    (S754_finite true 8950579 (-15)) 0x3C 1.

End Sim.

(** ** Bounded checks *)

(** [check] holds of the [n] integers from [k] on. *)
Fixpoint all_from (check : Z -> bool) (k : Z) (n : nat) : bool :=
  match n with
  | O => true
  | S n' => check k && all_from check (k + 1) n'
  end.

(** [f] is finite and within [1 / inv_tol] of the number [num / den]:
    [f = ± m * 2^e] with [|m * 2^e - num / den| <= 1 / inv_tol]. *)
Definition close_to (num den inv_tol : Z) (f : F32.float) : Prop :=
  match f with
  | S754_zero _ => Z.abs num * inv_tol <= den
  | S754_finite s m e =>
      e < 0 /\
      Z.abs ((if s then - Z.pos m else Z.pos m) * den - num * 2 ^ (- e))
      * inv_tol <= den * 2 ^ (- e)
  | _ => False
  end.

(** Decidable form of [close_to]. *)
Definition close_tob (num den inv_tol : Z) (f : F32.float) : bool :=
  match f with
  | S754_zero _ => Z.abs num * inv_tol <=? den
  | S754_finite s m e =>
      (e <? 0) &&
      (Z.abs ((if s then - Z.pos m else Z.pos m) * den - num * 2 ^ (- e))
       * inv_tol <=? den * 2 ^ (- e))
  | _ => false
  end.

(** The Fahrenheit accessor on the temperature decoded from the register
    value [r] (a signed count of hundredths of a degree), against the
    exact [32 + 9/5 * r/100 = (16000 + 9 r) / 500], within 0.0001. *)
Definition fahrenheit_check (r : Z) : bool :=
  close_tob (16000 + 9 * r) 500 10000
    (STTS22H_getTemp_F
       (set_temp (calculateTemp (r mod 65536 / 256) (r mod 256)) Sim.zeroed)).

(** The truncated threshold sum of the bound [k / 100]; -1 when the sum
    is not finite. *)
Definition threshold_code (k : Z) : Z :=
  match F32.trunc (threshold_sum (F32.lit k 100)) with
  | Some c => c
  | None => -1
  end.

(** From the bound [k / 100] on, [n] bounds a hundredth apart: every
    code is at least the one before it (the first at least [prev]), at
    most 254, and [0.64 * (code - 63) <= bound <= 0.64 * (code - 63) + 0.64]. *)
Fixpoint codes_from (prev : Z) (k : Z) (n : nat) : bool :=
  match n with
  | O => true
  | S n' =>
      let c := threshold_code k in
      (prev <=? c) && (c <=? 254) && (64 * (c - 63) <=? k)
      && (k <=? 64 * (c - 63) + 64) && codes_from c (k + 1) n'
  end.

(** ** A transport that refuses every transfer *)

(** A bus on which nothing is ever in progress and no transfer is
    accepted (no device acknowledges). *)
Module Nak.

Definition ERROR_NACK : Z := -1.

Definition transport : I2C unit := {|
  I2C_SUCCESS := 0;
  I2C_NUMBER_ERRORS := 2;
  I2C_writeData := fun _ _ _ _ b => (ERROR_NACK, b);
  I2C_readData := fun _ _ _ b => (ERROR_NACK, b);
  I2C_isReading := fun _ _ => false;
  I2C_isWriting := fun _ _ => false;
  I2C_isFailed := fun _ _ => false;
  I2C_getReceivedData := fun _ _ => []
|}.

Definition world : World unit := mkWorld tt [].

End Nak.

(** ** Proof steps shared by the properties *)

Ltac driver_unfold :=
  unfold STTS22H_checkConnection, STTS22H_setting, STTS22H_setLimits,
    STTS22H_measure, STTS22H_update, writeData, readData.

Ltac split_transfer :=
  match goal with
  | |- context [I2C_writeData ?h ?a ?d ?s ?b] =>
      destruct (I2C_writeData h a d s b) as [? ?] eqn:?
  | |- context [I2C_readData ?h ?a ?n ?b] =>
      destruct (I2C_readData h a n b) as [? ?] eqn:?
  end.

Ltac flags_done := simpl in *; intuition congruence.

Ltac pending_done IH :=
  cbn; intros;
  first [discriminate | congruence
        | apply IH; first [reflexivity | assumption | congruence]].

(** ** Facts about binary32 values *)

Lemma SFleb_not_SFltb (a b : F32.float) :
  F32.leb a b = true -> F32.ltb b a = false.
Proof.
  unfold F32.leb, F32.ltb, SFleb, SFltb.
  destruct a as [sa|sa| |sa ma ea], b as [sb|sb| |sb mb eb]; simpl;
    try discriminate; try reflexivity;
    try (destruct sa; simpl; congruence);
    try (destruct sb; simpl; congruence);
    try (destruct sa, sb; simpl; congruence).
  destruct sa, sb; cbn [SFcompare]; try congruence;
    rewrite (Z.compare_antisym ea eb);
    destruct (ea ?= eb); simpl; try congruence;
    change (Pos.compare_cont Eq mb ma) with (Pos.compare mb ma);
    change (Pos.compare_cont Eq ma mb) with (Pos.compare ma mb);
    rewrite (Pos.compare_antisym ma mb);
    destruct (ma ?= mb)%positive; simpl; congruence.
Qed.

Lemma trunc_truncation (f : F32.float) (n : Z) :
  F32.trunc f = Some n -> truncation_of n f.
Proof.
  destruct f as [s|s| |s m e]; simpl; try discriminate.
  - intros H; injection H as <-; reflexivity.
  - intros H; injection H as <-.
    destruct (0 <=? e) eqn:He; [reflexivity|].
    apply Z.leb_gt in He.
    assert (Hd : 0 < 2 ^ (- e)) by (apply Z.pow_pos_nonneg; lia).
    pose proof (Z.div_mod (Z.pos m) (2 ^ (- e)) ltac:(lia)) as Hdm.
    pose proof (Z.mod_pos_bound (Z.pos m) (2 ^ (- e)) Hd) as Hmb.
    destruct s; [rewrite Z.opp_involutive|]; nia.
Qed.

Lemma nearest_tob_sound (num den : Z) (f : F32.float) :
  nearest_tob num den f = true -> F32.nearest_to num den f.
Proof.
  destruct f as [s|s| |s m e]; simpl; try discriminate.
  - apply Z.eqb_eq.
  - rewrite !andb_true_iff, Z.ltb_lt, Z.leb_le, Z.ltb_lt, Z.leb_le.
    intros [[[He Hlo] Hhi] Herr]. repeat split; assumption.
Qed.

(** The literals of the source are the binary32 numbers nearest to
    their decimals. *)
Lemma literals_nearest :
  F32.nearest_to 64 100 (F32.lit 64 100) /\
  F32.nearest_to (-27315) 100 (F32.opp (F32.lit 27315 100)) /\
  F32.nearest_to (-395) 10 (F32.opp (F32.lit 395 10)) /\
  F32.nearest_to 1225 10 (F32.lit 1225 10).
Proof.
  split; [|split; [|split]]; apply nearest_tob_sound; vm_compute; reflexivity.
Qed.

Lemma in_all_bytes (b : Z) : 0 <= b < 256 -> In b all_bytes.
Proof.
  intros Hb. unfold all_bytes. apply in_map_iff.
  exists (Z.to_nat b). split; [lia|]. apply in_seq. lia.
Qed.

Lemma decode_check_all :
  forallb (fun h => forallb (fun l => decode_check h l) all_bytes) all_bytes
  = true.
Proof. vm_compute. reflexivity. Qed.

Lemma decode_check_bytes (h l : Z) :
  0 <= h < 256 -> 0 <= l < 256 -> decode_check h l = true.
Proof.
  intros Hh Hl.
  pose proof decode_check_all as Hall.
  rewrite forallb_forall in Hall.
  specialize (Hall h (in_all_bytes h Hh)).
  rewrite forallb_forall in Hall.
  exact (Hall l (in_all_bytes l Hl)).
Qed.

Lemma calculateTemp_nearest (h l : Z) :
  0 <= h < 256 -> 0 <= l < 256 ->
  Z.lor (Z.shiftl h 8) l = h * 256 + l /\
  F32.nearest_to (twos_complement16 (Z.lor (Z.shiftl h 8) l)) 100
    (calculateTemp h l).
Proof.
  intros Hh Hl.
  pose proof (decode_check_bytes h l Hh Hl) as H.
  unfold decode_check in H. apply andb_true_iff in H as [H1 H2].
  apply Z.eqb_eq in H1. split; [exact H1|].
  rewrite H1. now apply nearest_tob_sound.
Qed.

Lemma calculateTemp_unfold (h l : Z) :
  calculateTemp h l =
  F32.div (F32.of_Z (twos_complement16 (Z.lor (Z.shiftl h 8) l)))
          (F32.of_Z 100).
Proof. reflexivity. Qed.

(** ** Properties of the driver *)

Section Properties.

Context {Bus : Type} {transport : I2C Bus}.

(** The decoder writes only the three cached results. *)
Lemma decode_frame (s : STTS22H_Def) (data : list Z) :
  isInit (decode s data) = isInit s /\
  isReading (decode s data) = isReading s /\
  addrSent (decode s data) = addrSent s /\
  regAddr (decode s data) = regAddr s /\
  dataSize (decode s data) = dataSize s /\
  settings (decode s data) = settings s /\
  devAddr (decode s data) = devAddr s /\
  i2c (decode s data) = i2c s.
Proof.
  unfold decode.
  repeat match goal with
         | |- context [if ?c then _ else _] => destruct c
         end; simpl; repeat split; reflexivity.
Qed.

(** While the transport is still transferring, an update does nothing. *)
Lemma update_waits (s : STTS22H_Def) (w : World Bus) :
  I2C_isReading (i2c s) (bus w) || I2C_isWriting (i2c s) (bus w) = true ->
  STTS22H_update s w = (s, w).
Proof.
  intros H. unfold STTS22H_update. rewrite H.
  destruct (isInit s), (isReading s); reflexivity.
Qed.

(** Without a transaction in flight, an update does nothing. *)
Lemma update_idle (s : STTS22H_Def) (w : World Bus) :
  isReading s = false -> STTS22H_update s w = (s, w).
Proof.
  intros H. unfold STTS22H_update. rewrite H.
  destruct (isInit s); reflexivity.
Qed.

(** In every state the driver produces, a transaction in flight belongs
    to an initialized device, and the read phase to a transaction in
    flight. *)
Lemma Reachable_flags (s : STTS22H_Def) :
  Reachable s ->
  (isReading s = true -> isInit s = true) /\
  (addrSent s = true -> isReading s = true).
Proof.
  induction 1 as [s [Hi [Hr Ha]]
                 | s h a w s' _ IH Hs
                 | s w _ IH | s c w _ IH | s lo hi on w _ IH
                 | s w _ IH | s w _ IH].
  - rewrite Hr, Ha. split; discriminate.
  - unfold STTS22H_init in Hs.
    destruct ((h =? NULL) || (a =? 0)); simpl in Hs;
      injection Hs as <-; simpl; tauto.
  - driver_unfold.
    destruct (isInit s) eqn:Hi; simpl; [|flags_done].
    destruct (isReading s) eqn:Hr; simpl; [flags_done|].
    split_transfer. destruct (_ =? I2C_SUCCESS); flags_done.
  - driver_unfold.
    destruct (isInit s) eqn:Hi; simpl; [|flags_done].
    split_transfer. destruct (_ =? I2C_SUCCESS); flags_done.
  - driver_unfold.
    destruct (isInit s) eqn:Hi; simpl; [|flags_done].
    destruct (_ || _); simpl; [flags_done|].
    split_transfer. flags_done.
  - driver_unfold.
    destruct (isInit s) eqn:Hi; simpl; [|flags_done].
    destruct (isReading s) eqn:Hr; simpl; [flags_done|].
    split_transfer. destruct (_ =? I2C_SUCCESS); flags_done.
  - driver_unfold.
    destruct (isInit s) eqn:Hi; simpl; [|flags_done].
    destruct (isReading s) eqn:Hr; simpl; [|flags_done].
    destruct (_ || _); simpl; [flags_done|].
    destruct (addrSent s) eqn:Ha; simpl.
    + destruct (I2C_isFailed _ _); simpl; [flags_done|].
      destruct (decode_frame
                  (set_isReading false (set_addrSent false s))
                  (I2C_getReceivedData (i2c s) (bus w)))
        as (_ & -> & -> & _).
      flags_done.
    + split_transfer. destruct (_ =? I2C_SUCCESS); flags_done.
Qed.

(** C7.  Before initialization the connection check, the configuration
    write, the threshold write and the measurement trigger return
    [STTS22H_NOT_INIT] and leave both the device structure and the
    world (bus store and issued transfers) as they were; the update
    cycle leaves them as they were too. *)
Theorem not_initialized_rejected
    (s : STTS22H_Def) (w : World Bus) (controlReg : Z)
    (minTemp maxTemp : F32.float) (isSetLimits : bool) :
  isInit s = false ->
  STTS22H_checkConnection s w = (STTS22H_NOT_INIT, s, w) /\
  STTS22H_setting s controlReg w = (STTS22H_NOT_INIT, s, w) /\
  STTS22H_setLimits s minTemp maxTemp isSetLimits w
    = (STTS22H_NOT_INIT, s, w) /\
  STTS22H_measure s w = (STTS22H_NOT_INIT, s, w) /\
  STTS22H_update s w = (s, w).
Proof.
  intros H. driver_unfold. rewrite H. simpl. repeat split; reflexivity.
Qed.

(** C5.  On every device the driver has brought to the busy state,
    the connection check and the measurement trigger return
    [STTS22H_BUSY]; the device structure, hence the bookkeeping of the
    transaction in flight, and the world are unchanged: no transfer is
    requested. *)
Theorem busy_rejects_triggers (s : STTS22H_Def) (w : World Bus) :
  Reachable s ->
  isReading s = true ->
  STTS22H_checkConnection s w = (STTS22H_BUSY, s, w) /\
  STTS22H_measure s w = (STTS22H_BUSY, s, w).
Proof.
  intros Hs Hr.
  destruct (Reachable_flags s Hs) as [Hi _]. specialize (Hi Hr).
  driver_unfold. rewrite Hi, Hr. simpl. split; reflexivity.
Qed.

(** C9.  An update never changes the initialized flag, the bus handle,
    the bus address or the cached control settings, whatever the device
    state and whatever the transport reports. *)
Theorem update_frame (s : STTS22H_Def) (w : World Bus) :
  isInit (fst (STTS22H_update s w)) = isInit s /\
  i2c (fst (STTS22H_update s w)) = i2c s /\
  devAddr (fst (STTS22H_update s w)) = devAddr s /\
  settings (fst (STTS22H_update s w)) = settings s.
Proof.
  driver_unfold.
  destruct (isInit s) eqn:Hi; simpl; [|rewrite Hi; tauto].
  destruct (isReading s); simpl; [|tauto].
  destruct (_ || _); simpl; [tauto|].
  destruct (addrSent s); simpl.
  - destruct (I2C_isFailed _ _); simpl; [tauto|].
    destruct (decode_frame
                (set_isReading false (set_addrSent false s))
                (I2C_getReceivedData (i2c s) (bus w)))
      as (-> & _ & _ & _ & _ & -> & -> & ->).
    simpl. tauto.
  - split_transfer. destruct (_ =? I2C_SUCCESS); simpl; tauto.
Qed.

(** What the two triggers and the two phases of the update do on an
    initialized device. *)
Lemma measure_runs (s : STTS22H_Def) (w : World Bus) :
  isInit s = true -> isReading s = false ->
  let tr := I2C_writeData (i2c s) (devAddr s) [STATUS_ADDR] false (bus w) in
  let s1 := set_dataSize 3 (set_regAddr STATUS_ADDR s) in
  STTS22H_measure s w =
  (fst tr,
   (if fst tr =? I2C_SUCCESS then set_isReading true s1 else s1),
   mkWorld (snd tr)
     (issued w ++ [WriteTransfer (i2c s) (devAddr s) [STATUS_ADDR] false])).
Proof.
  intros Hi Hr. driver_unfold. rewrite Hi, Hr. simpl.
  split_transfer. simpl. destruct (_ =? I2C_SUCCESS); reflexivity.
Qed.

Lemma checkConnection_runs (s : STTS22H_Def) (w : World Bus) :
  isInit s = true -> isReading s = false ->
  let tr := I2C_writeData (i2c s) (devAddr s) [WHOAMI_ADDR] false (bus w) in
  let s1 := set_dataSize 1 (set_regAddr WHOAMI_ADDR s) in
  STTS22H_checkConnection s w =
  (fst tr,
   (if fst tr =? I2C_SUCCESS then set_isReading true s1 else s1),
   mkWorld (snd tr)
     (issued w ++ [WriteTransfer (i2c s) (devAddr s) [WHOAMI_ADDR] false])).
Proof.
  intros Hi Hr. driver_unfold. rewrite Hi, Hr. simpl.
  split_transfer. simpl. destruct (_ =? I2C_SUCCESS); reflexivity.
Qed.

Lemma update_requests_read (s : STTS22H_Def) (w : World Bus) :
  isInit s = true -> isReading s = true -> addrSent s = false ->
  transport_idle (i2c s) (bus w) ->
  let tr := I2C_readData (i2c s) (devAddr s) (dataSize s) (bus w) in
  STTS22H_update s w =
  ((if fst tr =? I2C_SUCCESS then set_addrSent true s
    else set_isReading false s),
   mkWorld (snd tr)
     (issued w ++ [ReadTransfer (i2c s) (devAddr s) (dataSize s)])).
Proof.
  intros Hi Hr Ha [Hbr Hbw]. driver_unfold.
  rewrite Hi, Hr, Ha, Hbr, Hbw. simpl.
  split_transfer. simpl. destruct (_ =? I2C_SUCCESS); reflexivity.
Qed.

Lemma update_completes_read (s : STTS22H_Def) (w : World Bus) :
  isInit s = true -> isReading s = true -> addrSent s = true ->
  transport_idle (i2c s) (bus w) ->
  let s1 := set_isReading false (set_addrSent false s) in
  STTS22H_update s w =
  ((if I2C_isFailed (i2c s) (bus w) then s1
    else decode s1 (I2C_getReceivedData (i2c s) (bus w))),
   w).
Proof.
  intros Hi Hr Ha [Hbr Hbw]. driver_unfold.
  rewrite Hi, Hr, Ha, Hbr, Hbw. simpl.
  destruct (I2C_isFailed _ _); reflexivity.
Qed.

(** C4.  A transaction started by the measurement trigger or the
    connection check on an initialized idle device, whose address write
    and read request the transport accepted, and whose read the
    transport reports as failed: the update that ends it only clears
    the busy flag and the phase, requests no transfer, decodes
    nothing, and the cached temperature, connectivity and status are
    those from before the transaction started. *)
Theorem failed_read_keeps_cache
    (op : STTS22H_Def -> World Bus -> Z * STTS22H_Def * World Bus)
    (s0 : STTS22H_Def) (w0 : World Bus) (b1 b2 : Bus) :
  op = STTS22H_measure \/ op = STTS22H_checkConnection ->
  isInit s0 = true -> isReading s0 = false -> addrSent s0 = false ->
  fst (fst (op s0 w0)) = I2C_SUCCESS ->
  transport_idle (i2c s0) b1 ->
  let r1 := STTS22H_update (snd (fst (op s0 w0)))
              (mkWorld b1 (issued (snd (op s0 w0)))) in
  addrSent (fst r1) = true ->
  transport_idle (i2c s0) b2 ->
  I2C_isFailed (i2c s0) b2 = true ->
  let w2 := mkWorld b2 (issued (snd r1)) in
  let r2 := STTS22H_update (fst r1) w2 in
  isReading (fst r1) = true /\
  r2 = (set_isReading false (set_addrSent false (fst r1)), w2) /\
  isReading (fst r2) = false /\ addrSent (fst r2) = false /\
  temp (fst r2) = temp s0 /\
  isConnected (fst r2) = isConnected s0 /\
  status (fst r2) = status s0.
Proof.
  intros Hop Hi Hr Ha Hacc Hidle1 r1 Hread Hidle2 Hfail w2 r2.
  assert (Hs1 : exists reg n,
             snd (fst (op s0 w0))
             = set_isReading true (set_dataSize n (set_regAddr reg s0))).
  { destruct Hop as [-> | ->].
    - rewrite (measure_runs s0 w0 Hi Hr) in Hacc |- *. simpl in Hacc |- *.
      rewrite Hacc, Z.eqb_refl. eauto.
    - rewrite (checkConnection_runs s0 w0 Hi Hr) in Hacc |- *.
      simpl in Hacc |- *. rewrite Hacc, Z.eqb_refl. eauto. }
  destruct Hs1 as (reg & n & Hs1).
  subst r2 w2 r1. revert Hread. rewrite Hs1.
  rewrite update_requests_read by (simpl; auto).
  simpl. destruct (_ =? I2C_SUCCESS); simpl; [intros _|congruence].
  rewrite update_completes_read by (simpl; auto).
  simpl. rewrite Hfail. simpl. repeat split; reflexivity.
Qed.


(** The decoder on a completed status read. *)
Lemma decode_status (s : STTS22H_Def) (b0 b1 b2 : Z) (rest : list Z) :
  regAddr s = STATUS_ADDR ->
  decode s (b0 :: b1 :: b2 :: rest) =
  if status_busy b0 then set_status b0 s
  else set_temp (calculateTemp b2 b1) (set_status b0 s).
Proof.
  intros Hreg. unfold decode. rewrite Hreg.
  change (status_busy (status (set_status (byte_at (b0 :: b1 :: b2 :: rest) 0) s)))
    with (status_busy b0).
  destruct (status_busy b0); reflexivity.
Qed.

(** C3.  An update that completes the read of a transaction on the
    status register, the transport reporting no failure, caches the
    first received byte as the status; when the busy bit of that byte
    is clear the temperature becomes [(byte2 << 8) | byte1], read as a
    16-bit two's-complement integer, divided by 100 in binary32 (the
    binary32 number nearest to the hundredth of that integer); when
    the busy bit is set the temperature is the one cached before. *)
Theorem status_read_decodes
    (s : STTS22H_Def) (w : World Bus) (b0 b1 b2 : Z) (rest : list Z) :
  isInit s = true -> isReading s = true -> addrSent s = true ->
  regAddr s = STATUS_ADDR ->
  transport_idle (i2c s) (bus w) ->
  I2C_isFailed (i2c s) (bus w) = false ->
  I2C_getReceivedData (i2c s) (bus w) = b0 :: b1 :: b2 :: rest ->
  0 <= b1 < 256 -> 0 <= b2 < 256 ->
  let s' := fst (STTS22H_update s w) in
  let raw := Z.lor (Z.shiftl b2 8) b1 in
  status s' = b0 /\
  (status_busy b0 = false ->
   temp s' = F32.div (F32.of_Z (twos_complement16 raw)) (F32.of_Z 100) /\
   F32.nearest_to (twos_complement16 raw) 100 (temp s')) /\
  (status_busy b0 = true -> temp s' = temp s).
Proof.
  intros Hi Hr Ha Hreg Hidle Hok Hrx Hb1 Hb2 s' raw. subst s' raw.
  rewrite update_completes_read by assumption.
  rewrite Hok, Hrx, decode_status by exact Hreg.
  destruct (status_busy b0) eqn:Hbusy; cbn [fst].
  - split; [reflexivity|]. split; [discriminate|]. intros _. reflexivity.
  - split; [reflexivity|]. split; [|discriminate]. intros _.
    split; [reflexivity|].
    exact (proj2 (calculateTemp_nearest b2 b1 Hb2 Hb1)).
Qed.

(** C1.  On an initialized idle device whose transport accepts the
    transfers: the measurement trigger requests the one-byte write of
    the status register address and sets the busy flag; the first
    update that finds the transport idle requests a three-byte read;
    the next update that finds it idle and not failed, with received
    bytes 0x00, 0x90, 0x01, requests nothing, ends the transaction and
    leaves 4.0 as the temperature in degrees Celsius. *)
Theorem measurement_end_to_end
    (s : STTS22H_Def) (w0 : World Bus) (b1 b2 : Bus) :
  Reachable s -> isInit s = true -> isReading s = false ->
  fst (I2C_writeData (i2c s) (devAddr s) [STATUS_ADDR] false (bus w0))
    = I2C_SUCCESS ->
  transport_idle (i2c s) b1 ->
  fst (I2C_readData (i2c s) (devAddr s) 3 b1) = I2C_SUCCESS ->
  transport_idle (i2c s) b2 ->
  I2C_isFailed (i2c s) b2 = false ->
  I2C_getReceivedData (i2c s) b2 = [0x00; 0x90; 0x01] ->
  let r0 := STTS22H_measure s w0 in
  let r1 := STTS22H_update (snd (fst r0)) (mkWorld b1 (issued (snd r0))) in
  let r2 := STTS22H_update (fst r1) (mkWorld b2 (issued (snd r1))) in
  fst (fst r0) = I2C_SUCCESS /\
  isReading (snd (fst r0)) = true /\
  issued (snd r0)
    = issued w0 ++ [WriteTransfer (i2c s) (devAddr s) [STATUS_ADDR] false] /\
  issued (snd r1)
    = issued (snd r0) ++ [ReadTransfer (i2c s) (devAddr s) 3] /\
  issued (snd r2) = issued (snd r1) /\
  isReading (fst r2) = false /\
  STTS22H_getTemp_C (fst r2) = F32.of_Z 4.
Proof.
  intros Hs Hi Hr Hw Hidle1 Hrd Hidle2 Hok Hrx r0 r1 r2.
  assert (Ha : addrSent s = false).
  { destruct (Reachable_flags s Hs) as [_ H].
    destruct (addrSent s); [|reflexivity].
    rewrite H in Hr by reflexivity. discriminate. }
  subst r2 r1 r0.
  rewrite (measure_runs s w0 Hi Hr). cbn [fst snd issued].
  rewrite Hw, Z.eqb_refl.
  rewrite update_requests_read by (cbn; auto).
  cbn [fst snd issued bus i2c devAddr dataSize set_isReading set_dataSize set_regAddr].
  rewrite Hrd, Z.eqb_refl.
  rewrite update_completes_read by (cbn; auto).
  cbn [fst snd issued bus i2c set_addrSent set_isReading set_dataSize set_regAddr].
  rewrite Hok, Hrx, decode_status by reflexivity.
  change (status_busy 0) with false. cbn [fst snd].
  repeat split; reflexivity.
Qed.
(** What the two writes do on an initialized busy device.  The
    configuration write and the threshold write make no busy check: the
    configuration write requests its two-byte write and returns the
    transport's result, caching the control byte when that result is
    [I2C_SUCCESS]; the threshold write returns [STTS22H_WRONG_DATA]
    without a transfer when a bound is out of range and otherwise
    requests its three-byte write and returns the transport's result.
    Both leave the bookkeeping of the transaction in flight (busy,
    phase, pending register, pending byte count) as it was. *)
Theorem writes_ignore_busy
    (s : STTS22H_Def) (w : World Bus) (controlReg : Z)
    (minTemp maxTemp : F32.float) (isSetLimits : bool) :
  isInit s = true -> isReading s = true ->
  let ctrl := [CTRL_ADDR; controlReg] in
  let limits :=
    if isSetLimits
    then [TEMP_H_LIMIT_ADDR; calculateThreshold maxTemp;
          calculateThreshold minTemp]
    else [TEMP_H_LIMIT_ADDR; 0; 0] in
  let tc := I2C_writeData (i2c s) (devAddr s) ctrl true (bus w) in
  let tl := I2C_writeData (i2c s) (devAddr s) limits true (bus w) in
  STTS22H_setting s controlReg w =
    (fst tc,
     (if fst tc =? I2C_SUCCESS then set_settings controlReg s else s),
     mkWorld (snd tc)
       (issued w ++ [WriteTransfer (i2c s) (devAddr s) ctrl true])) /\
  STTS22H_setLimits s minTemp maxTemp isSetLimits w =
    (if F32.ltb minTemp (F32.opp (F32.lit 395 10))
        || F32.gtb maxTemp (F32.lit 1225 10)
     then (STTS22H_WRONG_DATA, s, w)
     else (fst tl, s,
           mkWorld (snd tl)
             (issued w ++ [WriteTransfer (i2c s) (devAddr s) limits true]))) /\
  bookkeeping (snd (fst (STTS22H_setting s controlReg w))) = bookkeeping s /\
  bookkeeping (snd (fst (STTS22H_setLimits s minTemp maxTemp isSetLimits w)))
    = bookkeeping s.
Proof.
  intros Hi Hr ctrl limits tc tl. subst tc tl ctrl limits.
  driver_unfold. rewrite Hi. cbn [negb].
  destruct (I2C_writeData (i2c s) (devAddr s) [CTRL_ADDR; controlReg] true
              (bus w)) as [rc bc].
  destruct (F32.ltb minTemp _ || F32.gtb maxTemp _).
  - cbn [fst snd]. destruct (rc =? I2C_SUCCESS); repeat split; reflexivity.
  - destruct (I2C_writeData _ _ _ true (bus w)) as [rl bl].
    cbn [fst snd]. destruct (rc =? I2C_SUCCESS); repeat split; reflexivity.
Qed.

(** C10.  With both bounds within [-39.5, 122.5] and limits enabled,
    an initialized device accepts the pair whatever the order of the
    two bounds: the three-byte threshold write (address, high limit,
    low limit) is requested and its result returned, which is not
    [STTS22H_WRONG_DATA]. *)
Theorem limits_not_compared
    (s : STTS22H_Def) (w : World Bus) (minTemp maxTemp : F32.float) :
  isInit s = true ->
  F32.leb (F32.opp (F32.lit 395 10)) minTemp = true ->
  F32.leb minTemp (F32.lit 1225 10) = true ->
  F32.leb (F32.opp (F32.lit 395 10)) maxTemp = true ->
  F32.leb maxTemp (F32.lit 1225 10) = true ->
  transport_codes_own ->
  let data := [TEMP_H_LIMIT_ADDR; calculateThreshold maxTemp;
               calculateThreshold minTemp] in
  let tr := I2C_writeData (i2c s) (devAddr s) data true (bus w) in
  STTS22H_setLimits s minTemp maxTemp true w =
    (fst tr, s,
     mkWorld (snd tr)
       (issued w ++ [WriteTransfer (i2c s) (devAddr s) data true])) /\
  fst tr <> STTS22H_WRONG_DATA.
Proof.
  intros Hi Hlo1 _ _ Hhi2 Hcodes data tr. subst tr data.
  split.
  - driver_unfold. rewrite Hi. cbn [negb].
    unfold F32.gtb.
    rewrite (SFleb_not_SFltb _ _ Hlo1).
    change (SFltb (F32.lit 1225 10) maxTemp)
      with (F32.ltb (F32.lit 1225 10) maxTemp).
    rewrite (SFleb_not_SFltb _ _ Hhi2). cbn [orb].
    destruct (I2C_writeData _ _ _ true (bus w)) as [r b]. reflexivity.
  - unfold STTS22H_WRONG_DATA.
    pose proof (Hcodes (i2c s) (devAddr s)
                  [TEMP_H_LIMIT_ADDR; calculateThreshold maxTemp;
                   calculateThreshold minTemp] true (bus w)).
    lia.
Qed.

(** C8.  [STTS22H_init] returns [STTS22H_WRONG_DATA] for a null device
    pointer, a null bus handle or a zero address, and then changes
    nothing; otherwise it returns [STTS22H_SUCCESS], stores the handle
    and the address, sets the temperature to -273.15 (the binary32
    number nearest to it) and the initialized flag, and changes no
    other field.  The world is the same in both cases: no transfer is
    requested. *)
Theorem init_checks_arguments
    (s : STTS22H_Def) (h : I2CDef_ptr) (addr : Z) (w : World Bus) :
  STTS22H_init None h addr w = (STTS22H_WRONG_DATA, None, w) /\
  (h = NULL \/ addr = 0 ->
   STTS22H_init (Some s) h addr w = (STTS22H_WRONG_DATA, Some s, w)) /\
  (h <> NULL -> addr <> 0 ->
   exists s',
     STTS22H_init (Some s) h addr w = (STTS22H_SUCCESS, Some s', w) /\
     i2c s' = h /\ devAddr s' = addr /\ isInit s' = true /\
     temp s' = S754_finite true 8950579 (-15) /\
     F32.nearest_to (-27315) 100 (temp s') /\
     isConnected s' = isConnected s /\ bookkeeping s' = bookkeeping s /\
     settings s' = settings s /\ status s' = status s).
Proof.
  split; [reflexivity|]. split.
  - intros H. unfold STTS22H_init.
    destruct H as [-> | ->]; [reflexivity|].
    rewrite orb_true_r. reflexivity.
  - intros Hh Ha. unfold STTS22H_init.
    apply Z.eqb_neq in Hh, Ha. rewrite Hh, Ha. cbn [orb].
    eexists. split; [reflexivity|].
    cbn [i2c devAddr isInit temp set_isInit set_temp set_devAddr set_i2c].
    repeat split; try reflexivity.
    all: vm_compute; try reflexivity; try lia.
    all: intuition discriminate.
Qed.
End Properties.

(** ** The threshold code *)

(** C6, as the code has it.  [calculateThreshold] computes
    [value / 0.64f + 63.0f] in binary32 and drops the fraction of the sum
    (it does not round to the nearest integer): whenever the truncated
    sum [n] is within 0..255 the code is [n], the integer with
    [n <= sum < n + 1].  The code of 0.0 is 63, and the truncated sums of
    -39.5 and 122.5 are 1 and 254, within the byte range, so their codes
    are 1 and 254. *)
Theorem calculateThreshold_truncates :
  (forall (value : F32.float) (n : Z),
      F32.trunc (threshold_sum value) = Some n -> 0 <= n < 256 ->
      calculateThreshold value = n /\ truncation_of n (threshold_sum value)) /\
  calculateThreshold (F32.of_Z 0) = 63 /\
  (F32.trunc (threshold_sum (F32.opp (F32.lit 395 10))) = Some 1 /\
   calculateThreshold (F32.opp (F32.lit 395 10)) = 1) /\
  (F32.trunc (threshold_sum (F32.lit 1225 10)) = Some 254 /\
   calculateThreshold (F32.lit 1225 10) = 254).
Proof.
  split.
  - intros value n Ht Hn. split.
    + unfold calculateThreshold, F32.to_uint8.
      change (F32.add (F32.div value (F32.lit 64 100)) (F32.of_Z 63))
        with (threshold_sum value).
      rewrite Ht. apply Z.mod_small. exact Hn.
    + apply trunc_truncation. exact Ht.
  - repeat split; vm_compute; reflexivity.
Qed.

(** The bound 25.0: the sum is 102.0625 and the code 102. *)
Lemma calculateThreshold_truncates_witness :
  F32.trunc (threshold_sum (F32.of_Z 25)) = Some 102 /\ 0 <= 102 < 256 /\
  calculateThreshold (F32.of_Z 25) = 102 /\
  truncation_of 102 (threshold_sum (F32.of_Z 25)).
Proof.
  assert (Ht : F32.trunc (threshold_sum (F32.of_Z 25)) = Some 102)
    by (vm_compute; reflexivity).
  assert (Hn : 0 <= 102 < 256) by lia.
  split; [exact Ht|]. split; [exact Hn|].
  exact (proj1 calculateThreshold_truncates (F32.of_Z 25) 102 Ht Hn).
Defined.

(** C6 as stated fails at 1.0: the sum is 64.5625, which rounds to 65,
    and the code is 64. *)
Lemma calculateThreshold_rounded_counterexample :
  calculateThreshold (F32.of_Z 1) = 64 /\
  calculateThreshold_rounded (F32.of_Z 1) = 65 /\
  calculateThreshold (F32.of_Z 1) <> calculateThreshold_rounded (F32.of_Z 1).
Proof.
  repeat split; vm_compute; congruence.
Qed.

(** ** The properties on the simulated transport *)

(** The simulated transport only returns 0, -1 and -2. *)
Lemma sim_codes_own : transport_codes_own (Bus := Sim.SimBus).
Proof.
  intros h a bytes stop b. cbn. unfold Sim.write.
  destruct (h =? NULL); [cbn; unfold Sim.ERROR_NULL; lia|].
  destruct (Sim.writing b || Sim.reading b); cbn;
    unfold Sim.ERROR_BUSY; lia.
Qed.

(** The simulated devices are states the driver produces. *)
Lemma sim_device_reachable : Reachable Sim.device.
Proof.
  apply (reach_init Sim.zeroed 1 0x3C Sim.idle_world).
  - apply reach_blank. repeat split.
  - vm_compute. reflexivity.
Qed.

Lemma sim_measuring_reachable : Reachable Sim.measuring.
Proof.
  exact (reach_measure Sim.device Sim.idle_world sim_device_reachable).
Qed.

(** C7 on a zeroed structure. *)
Lemma not_initialized_rejected_witness :
  isInit Sim.zeroed = false /\
  STTS22H_checkConnection Sim.zeroed Sim.idle_world
    = (STTS22H_NOT_INIT, Sim.zeroed, Sim.idle_world) /\
  STTS22H_setting Sim.zeroed 0x0C Sim.idle_world
    = (STTS22H_NOT_INIT, Sim.zeroed, Sim.idle_world) /\
  STTS22H_setLimits Sim.zeroed (F32.of_Z 0) (F32.of_Z 50) true Sim.idle_world
    = (STTS22H_NOT_INIT, Sim.zeroed, Sim.idle_world) /\
  STTS22H_measure Sim.zeroed Sim.idle_world
    = (STTS22H_NOT_INIT, Sim.zeroed, Sim.idle_world) /\
  STTS22H_update Sim.zeroed Sim.idle_world = (Sim.zeroed, Sim.idle_world).
Proof.
  split; [reflexivity|].
  apply (not_initialized_rejected Sim.zeroed Sim.idle_world 0x0C
           (F32.of_Z 0) (F32.of_Z 50) true).
  reflexivity.
Defined.

(** C5 on the device with a measurement in flight. *)
Lemma busy_rejects_triggers_witness :
  Reachable Sim.measuring /\ isReading Sim.measuring = true /\
  STTS22H_checkConnection Sim.measuring Sim.idle_world
    = (STTS22H_BUSY, Sim.measuring, Sim.idle_world) /\
  STTS22H_measure Sim.measuring Sim.idle_world
    = (STTS22H_BUSY, Sim.measuring, Sim.idle_world).
Proof.
  split; [exact sim_measuring_reachable|]. split; [reflexivity|].
  apply (busy_rejects_triggers Sim.measuring Sim.idle_world).
  - exact sim_measuring_reachable.
  - reflexivity.
Defined.

(** C4 on a measurement whose read fails. *)
Lemma failed_read_keeps_cache_witness :
  let r0 := STTS22H_measure Sim.device Sim.idle_world in
  let r1 := STTS22H_update (snd (fst r0))
              (mkWorld Sim.idle_bus (issued (snd r0))) in
  let w2 := mkWorld Sim.failed_bus (issued (snd r1)) in
  let r2 := STTS22H_update (fst r1) w2 in
  fst (fst r0) = I2C_SUCCESS /\ addrSent (fst r1) = true /\
  I2C_isFailed (i2c Sim.device) Sim.failed_bus = true /\
  isReading (fst r1) = true /\
  r2 = (set_isReading false (set_addrSent false (fst r1)), w2) /\
  isReading (fst r2) = false /\ addrSent (fst r2) = false /\
  temp (fst r2) = temp Sim.device /\
  isConnected (fst r2) = isConnected Sim.device /\
  status (fst r2) = status Sim.device.
Proof.
  intros r0 r1 w2 r2.
  split; [reflexivity|]. split; [reflexivity|]. split; [reflexivity|].
  apply (failed_read_keeps_cache STTS22H_measure Sim.device Sim.idle_world
           Sim.idle_bus Sim.failed_bus).
  - left; reflexivity.
  - reflexivity.
  - reflexivity.
  - reflexivity.
  - reflexivity.
  - split; reflexivity.
  - reflexivity.
  - split; reflexivity.
  - reflexivity.
Defined.

(** C3 on the received bytes 0x00, 0x70, 0xFE: the raw value 0xFE70 is
    -400. *)
Lemma status_read_decodes_witness :
  let w := mkWorld (Sim.bus_with [0x00; 0x70; 0xFE]) [] in
  let s' := fst (STTS22H_update Sim.reading_back w) in
  let raw := Z.lor (Z.shiftl 0xFE 8) 0x70 in
  I2C_getReceivedData (i2c Sim.reading_back) (bus w) = [0x00; 0x70; 0xFE] /\
  status s' = 0x00 /\
  (status_busy 0x00 = false ->
   temp s' = F32.div (F32.of_Z (twos_complement16 raw)) (F32.of_Z 100) /\
   F32.nearest_to (twos_complement16 raw) 100 (temp s')) /\
  (status_busy 0x00 = true -> temp s' = temp Sim.reading_back).
Proof.
  intros w s' raw. split; [reflexivity|].
  apply (status_read_decodes Sim.reading_back w 0x00 0x70 0xFE []).
  - reflexivity.
  - reflexivity.
  - reflexivity.
  - reflexivity.
  - split; reflexivity.
  - reflexivity.
  - reflexivity.
  - lia.
  - lia.
Defined.

(** C1 on the simulated transport. *)
Lemma measurement_end_to_end_witness :
  let b2 := Sim.bus_with [0x00; 0x90; 0x01] in
  let r0 := STTS22H_measure Sim.device Sim.idle_world in
  let r1 := STTS22H_update (snd (fst r0))
              (mkWorld Sim.idle_bus (issued (snd r0))) in
  let r2 := STTS22H_update (fst r1) (mkWorld b2 (issued (snd r1))) in
  Reachable Sim.device /\ isInit Sim.device = true /\
  isReading Sim.device = false /\
  fst (fst r0) = I2C_SUCCESS /\
  isReading (snd (fst r0)) = true /\
  issued (snd r0)
    = issued Sim.idle_world
      ++ [WriteTransfer (i2c Sim.device) (devAddr Sim.device) [STATUS_ADDR]
            false] /\
  issued (snd r1)
    = issued (snd r0)
      ++ [ReadTransfer (i2c Sim.device) (devAddr Sim.device) 3] /\
  issued (snd r2) = issued (snd r1) /\
  isReading (fst r2) = false /\
  STTS22H_getTemp_C (fst r2) = F32.of_Z 4.
Proof.
  intros b2 r0 r1 r2.
  split; [exact sim_device_reachable|].
  split; [reflexivity|]. split; [reflexivity|].
  apply (measurement_end_to_end Sim.device Sim.idle_world Sim.idle_bus b2).
  - exact sim_device_reachable.
  - reflexivity.
  - reflexivity.
  - reflexivity.
  - split; reflexivity.
  - reflexivity.
  - split; reflexivity.
  - reflexivity.
  - reflexivity.
Defined.

(** C2.  On the device with a measurement in flight and an idle
    transport, the configuration write and the threshold write are both
    requested from the bus and return [I2C_SUCCESS], not
    [STTS22H_BUSY]: neither function looks at the busy flag, which the
    connection check and the measurement trigger do. *)
Lemma writes_when_busy_reach_the_bus :
  isInit Sim.measuring = true /\ isReading Sim.measuring = true /\
  STTS22H_setting Sim.measuring 0x0C Sim.idle_world
    = (I2C_SUCCESS, set_settings 0x0C Sim.measuring,
       mkWorld (Sim.mkSimBus true false false [])
         [WriteTransfer 1 0x3C [CTRL_ADDR; 0x0C] true]) /\
  STTS22H_setLimits Sim.measuring (F32.of_Z 0) (F32.of_Z 50) true
      Sim.idle_world
    = (I2C_SUCCESS, Sim.measuring,
       mkWorld (Sim.mkSimBus true false false [])
         [WriteTransfer 1 0x3C [TEMP_H_LIMIT_ADDR; 141; 63] true]) /\
  I2C_SUCCESS (Bus := Sim.SimBus) <> STTS22H_BUSY (Bus := Sim.SimBus).
Proof.
  repeat split; vm_compute; congruence.
Qed.

(** The two writes on the device with a measurement in flight. *)
Lemma writes_ignore_busy_witness :
  let ctrl := [CTRL_ADDR; 0x0C] in
  let limits := [TEMP_H_LIMIT_ADDR; calculateThreshold (F32.of_Z 50);
                 calculateThreshold (F32.of_Z 0)] in
  let done := mkWorld (Sim.mkSimBus true false false []) in
  isInit Sim.measuring = true /\ isReading Sim.measuring = true /\
  STTS22H_setting Sim.measuring 0x0C Sim.idle_world
    = (0, set_settings 0x0C Sim.measuring,
       done [WriteTransfer 1 0x3C ctrl true]) /\
  STTS22H_setLimits Sim.measuring (F32.of_Z 0) (F32.of_Z 50) true
      Sim.idle_world
    = (0, Sim.measuring, done [WriteTransfer 1 0x3C limits true]) /\
  bookkeeping (snd (fst (STTS22H_setting Sim.measuring 0x0C Sim.idle_world)))
    = bookkeeping Sim.measuring /\
  bookkeeping
    (snd (fst (STTS22H_setLimits Sim.measuring (F32.of_Z 0) (F32.of_Z 50)
                 true Sim.idle_world)))
    = bookkeeping Sim.measuring.
Proof.
  intros ctrl limits done.
  split; [reflexivity|]. split; [reflexivity|].
  exact (writes_ignore_busy Sim.measuring Sim.idle_world 0x0C
           (F32.of_Z 0) (F32.of_Z 50) true eq_refl eq_refl).
Defined.

(** C10 with the low bound 100.0 above the high bound 0.0. *)
Lemma limits_not_compared_witness :
  let lo := F32.of_Z 100 in
  let hi := F32.of_Z 0 in
  let data := [TEMP_H_LIMIT_ADDR; calculateThreshold hi;
               calculateThreshold lo] in
  F32.ltb hi lo = true /\
  STTS22H_setLimits Sim.device lo hi true Sim.idle_world
    = (0, Sim.device,
       mkWorld (Sim.mkSimBus true false false [])
         [WriteTransfer 1 0x3C data true]) /\
  0 <> STTS22H_WRONG_DATA (Bus := Sim.SimBus).
Proof.
  intros lo hi data.
  split; [reflexivity|].
  exact (limits_not_compared Sim.device Sim.idle_world lo hi
           eq_refl eq_refl eq_refl eq_refl eq_refl sim_codes_own).
Defined.

(** C8 on a zeroed structure: a null handle, a zero address, and the
    handle 1 with the address 0x3C. *)
Lemma init_checks_arguments_witness :
  STTS22H_init (Some Sim.zeroed) NULL 0x3C Sim.idle_world
    = (STTS22H_WRONG_DATA, Some Sim.zeroed, Sim.idle_world) /\
  STTS22H_init (Some Sim.zeroed) 1 0 Sim.idle_world
    = (STTS22H_WRONG_DATA, Some Sim.zeroed, Sim.idle_world) /\
  exists s',
    STTS22H_init (Some Sim.zeroed) 1 0x3C Sim.idle_world
      = (STTS22H_SUCCESS, Some s', Sim.idle_world) /\
    i2c s' = 1 /\ devAddr s' = 0x3C /\ isInit s' = true /\
    temp s' = S754_finite true 8950579 (-15) /\
    F32.nearest_to (-27315) 100 (temp s') /\
    isConnected s' = isConnected Sim.zeroed /\
    bookkeeping s' = bookkeeping Sim.zeroed /\
    settings s' = settings Sim.zeroed /\ status s' = status Sim.zeroed.
Proof.
  split.
  - apply (proj1 (proj2 (init_checks_arguments Sim.zeroed NULL 0x3C
                           Sim.idle_world))).
    left; reflexivity.
  - split.
    + apply (proj1 (proj2 (init_checks_arguments Sim.zeroed 1 0
                             Sim.idle_world))).
      right; reflexivity.
    + apply (proj2 (proj2 (init_checks_arguments Sim.zeroed 1 0x3C
                             Sim.idle_world))).
      * discriminate.
      * discriminate.
Defined.

(** ** Further properties of the driver *)

Section MoreProperties.

Context {Bus : Type} {transport : I2C Bus}.

(** The decoder on a completed identity read. *)
Lemma decode_whoami (s : STTS22H_Def) (data : list Z) :
  regAddr s = WHOAMI_ADDR ->
  decode s data = set_isConnected (WHOAMI =? byte_at data 0) s.
Proof. intros Hreg. unfold decode. rewrite Hreg. reflexivity. Qed.

(** X1.  The connection check, end to end, on an initialized idle
    device whose transport accepts the transfers: the check requests the
    one-byte write of the identity register address, the first update
    with the transport idle requests a one-byte read, and the next one,
    not failed, ends the transaction with the connected flag set exactly
    when the received byte is 0xA0; the cached temperature and status
    are untouched. *)
Theorem connection_check_end_to_end
    (s : STTS22H_Def) (w0 : World Bus) (b1 b2 : Bus) (id : Z)
    (rest : list Z) :
  Reachable s -> isInit s = true -> isReading s = false ->
  fst (I2C_writeData (i2c s) (devAddr s) [WHOAMI_ADDR] false (bus w0))
    = I2C_SUCCESS ->
  transport_idle (i2c s) b1 ->
  fst (I2C_readData (i2c s) (devAddr s) 1 b1) = I2C_SUCCESS ->
  transport_idle (i2c s) b2 ->
  I2C_isFailed (i2c s) b2 = false ->
  I2C_getReceivedData (i2c s) b2 = id :: rest ->
  let r0 := STTS22H_checkConnection s w0 in
  let r1 := STTS22H_update (snd (fst r0)) (mkWorld b1 (issued (snd r0))) in
  let r2 := STTS22H_update (fst r1) (mkWorld b2 (issued (snd r1))) in
  issued (snd r2)
    = issued w0 ++ [WriteTransfer (i2c s) (devAddr s) [WHOAMI_ADDR] false;
                    ReadTransfer (i2c s) (devAddr s) 1] /\
  isReading (fst r2) = false /\ addrSent (fst r2) = false /\
  STTS22H_isConnected (fst r2) = (id =? 0xA0) /\
  temp (fst r2) = temp s /\ status (fst r2) = status s.
Proof.
  intros Hs Hi Hr Hw Hidle1 Hrd Hidle2 Hok Hrx r0 r1 r2.
  assert (Ha : addrSent s = false).
  { destruct (Reachable_flags s Hs) as [_ H].
    destruct (addrSent s); [|reflexivity].
    rewrite H in Hr by reflexivity. discriminate. }
  subst r2 r1 r0.
  rewrite (checkConnection_runs s w0 Hi Hr). cbn [fst snd issued].
  rewrite Hw, Z.eqb_refl.
  rewrite (update_requests_read
             (set_isReading true (set_dataSize 1 (set_regAddr WHOAMI_ADDR s))))
    by (cbn; auto).
  cbn [fst snd issued bus i2c devAddr dataSize set_isReading set_dataSize
       set_regAddr].
  rewrite Hrd, Z.eqb_refl.
  rewrite update_completes_read by (cbn; auto).
  cbn [fst snd issued bus i2c set_addrSent set_isReading set_dataSize
       set_regAddr].
  rewrite Hok, Hrx, decode_whoami by reflexivity.
  unfold STTS22H_isConnected, byte_at, WHOAMI. cbn [nth fst snd].
  rewrite <- app_assoc. cbn [app isReading addrSent isConnected temp status
    set_isConnected set_isReading set_addrSent set_dataSize set_regAddr].
  rewrite (Z.eqb_sym 160 id).
  repeat split; reflexivity.
Qed.

(** X2.  An update changes neither the device structure nor the world
    when no transaction is in flight, or while the transport is still
    reading or writing. *)
Theorem update_does_nothing (s : STTS22H_Def) (w : World Bus) :
  isReading s = false \/ I2C_isReading (i2c s) (bus w) = true
  \/ I2C_isWriting (i2c s) (bus w) = true ->
  STTS22H_update s w = (s, w).
Proof.
  intros [H | [H | H]].
  - apply update_idle. exact H.
  - apply update_waits. rewrite H. reflexivity.
  - apply update_waits. rewrite H. apply orb_true_r.
Qed.

(** X3.  In every state the driver produces, a busy device is
    initialized, the read phase belongs to a busy device, and the
    pending register and byte count of a busy device are those of one of
    the two triggers: identity register with one byte, or status
    register with three. *)
Theorem Reachable_invariant (s : STTS22H_Def) :
  Reachable s ->
  (isReading s = true -> isInit s = true) /\
  (addrSent s = true -> isReading s = true) /\
  (isReading s = true ->
   (regAddr s = WHOAMI_ADDR /\ dataSize s = 1)
   \/ (regAddr s = STATUS_ADDR /\ dataSize s = 3)).
Proof.
  intros Hs. destruct (Reachable_flags s Hs) as [H1 H2].
  split; [exact H1|]. split; [exact H2|]. clear H1 H2.
  induction Hs as [s [Hi [Hr Ha]]
                  | s h a w s' _ IH Hs'
                  | s w _ IH | s c w _ IH | s lo hi on w _ IH
                  | s w _ IH | s w _ IH].
  - rewrite Hr. discriminate.
  - unfold STTS22H_init in Hs'.
    destruct ((h =? NULL) || (a =? 0)); cbn in Hs';
      injection Hs' as <-; exact IH.
  - driver_unfold.
    destruct (isInit s); cbn [negb]; [|pending_done IH].
    destruct (isReading s) eqn:Hr; [pending_done IH|].
    split_transfer. destruct (_ =? I2C_SUCCESS); cbn.
    + intros _. left. split; reflexivity.
    + rewrite Hr. discriminate.
  - driver_unfold.
    destruct (isInit s); cbn [negb]; [|pending_done IH].
    split_transfer. destruct (_ =? I2C_SUCCESS); pending_done IH.
  - driver_unfold.
    destruct (isInit s); cbn [negb]; [|pending_done IH].
    destruct (_ || _); [pending_done IH|].
    split_transfer. pending_done IH.
  - driver_unfold.
    destruct (isInit s); cbn [negb]; [|pending_done IH].
    destruct (isReading s) eqn:Hr; [pending_done IH|].
    split_transfer. destruct (_ =? I2C_SUCCESS); cbn.
    + intros _. right. split; reflexivity.
    + rewrite Hr. discriminate.
  - driver_unfold.
    destruct (isInit s); cbn [negb]; [|pending_done IH].
    destruct (isReading s) eqn:Hr; cbn [negb]; [|pending_done IH].
    destruct (_ || _); [pending_done IH|].
    destruct (addrSent s).
    + destruct (I2C_isFailed _ _); cbn [negb fst].
      * cbn. discriminate.
      * match goal with
        | |- context [decode ?a ?d] =>
            destruct (decode_frame a d) as (_ & -> & _)
        end.
        cbn. discriminate.
    + split_transfer. destruct (_ =? I2C_SUCCESS); pending_done IH.
Qed.

(** X4.  When the transport refuses the read request of a transaction,
    the update only clears the busy flag: the transaction is abandoned
    and every cached value is kept; the request is the only transfer of
    that update. *)
Theorem read_request_refused (s : STTS22H_Def) (w : World Bus) :
  isInit s = true -> isReading s = true -> addrSent s = false ->
  transport_idle (i2c s) (bus w) ->
  fst (I2C_readData (i2c s) (devAddr s) (dataSize s) (bus w)) <> I2C_SUCCESS ->
  fst (STTS22H_update s w) = set_isReading false s /\
  issued (snd (STTS22H_update s w))
    = issued w ++ [ReadTransfer (i2c s) (devAddr s) (dataSize s)].
Proof.
  intros Hi Hr Ha Hidle Hno.
  rewrite update_requests_read by assumption.
  apply Z.eqb_neq in Hno. rewrite Hno. split; reflexivity.
Qed.

(** X5.  When the transport refuses the address write, the measurement
    trigger and the connection check return the transport's code and the
    device stays idle, but the pending register and the pending byte
    count have already been overwritten. *)
Theorem trigger_refused (s : STTS22H_Def) (w : World Bus) :
  isInit s = true -> isReading s = false ->
  (forall reg, fst (I2C_writeData (i2c s) (devAddr s) [reg] false (bus w))
               <> I2C_SUCCESS) ->
  let rm := STTS22H_measure s w in
  let rc := STTS22H_checkConnection s w in
  fst (fst rm)
    = fst (I2C_writeData (i2c s) (devAddr s) [STATUS_ADDR] false (bus w)) /\
  snd (fst rm) = set_dataSize 3 (set_regAddr STATUS_ADDR s) /\
  fst (fst rc)
    = fst (I2C_writeData (i2c s) (devAddr s) [WHOAMI_ADDR] false (bus w)) /\
  snd (fst rc) = set_dataSize 1 (set_regAddr WHOAMI_ADDR s).
Proof.
  intros Hi Hr Hno rm rc. subst rm rc.
  rewrite (measure_runs s w Hi Hr), (checkConnection_runs s w Hi Hr).
  cbn [fst snd].
  pose proof (Hno STATUS_ADDR) as H1. pose proof (Hno WHOAMI_ADDR) as H2.
  apply Z.eqb_neq in H1, H2. rewrite H1, H2.
  repeat split; reflexivity.
Qed.

(** X6.  Turning the limits off still checks the bounds: with a bound
    out of range the call returns [STTS22H_WRONG_DATA] without a
    transfer, and otherwise it writes zero to both limit registers,
    whatever the bounds. *)
Theorem setLimits_disable
    (s : STTS22H_Def) (w : World Bus) (minTemp maxTemp : F32.float) :
  isInit s = true ->
  (F32.ltb minTemp (F32.opp (F32.lit 395 10)) = true
   \/ F32.gtb maxTemp (F32.lit 1225 10) = true ->
   STTS22H_setLimits s minTemp maxTemp false w = (STTS22H_WRONG_DATA, s, w)) /\
  (F32.ltb minTemp (F32.opp (F32.lit 395 10)) = false ->
   F32.gtb maxTemp (F32.lit 1225 10) = false ->
   let tr := I2C_writeData (i2c s) (devAddr s) [TEMP_H_LIMIT_ADDR; 0; 0] true
               (bus w) in
   STTS22H_setLimits s minTemp maxTemp false w =
   (fst tr, s,
    mkWorld (snd tr)
      (issued w
       ++ [WriteTransfer (i2c s) (devAddr s) [TEMP_H_LIMIT_ADDR; 0; 0] true]))).
Proof.
  intros Hi. split.
  - intros H. driver_unfold. rewrite Hi. cbn [negb].
    destruct H as [-> | ->]; [reflexivity|].
    rewrite orb_true_r. reflexivity.
  - intros H1 H2 tr. subst tr. driver_unfold. rewrite Hi, H1, H2.
    cbn [negb orb]. split_transfer. reflexivity.
Qed.

Lemma ltb_nan_l (x : F32.float) : F32.ltb S754_nan x = false.
Proof. reflexivity. Qed.

Lemma ltb_nan_r (x : F32.float) : F32.ltb x S754_nan = false.
Proof. destruct x; reflexivity. Qed.

(** X7.  The range check is one-sided: the low bound is only bounded
    below and the high bound only above, and a NaN passes both
    comparisons.  On an initialized device such a pair is accepted and
    the three-byte write to the limit registers is requested. *)
Theorem limits_one_sided
    (s : STTS22H_Def) (w : World Bus) (minTemp maxTemp : F32.float)
    (isSetLimits : bool) :
  isInit s = true ->
  minTemp = S754_nan \/ F32.leb (F32.opp (F32.lit 395 10)) minTemp = true ->
  maxTemp = S754_nan \/ F32.leb maxTemp (F32.lit 1225 10) = true ->
  exists hi lo,
    let data := [TEMP_H_LIMIT_ADDR; hi; lo] in
    let tr := I2C_writeData (i2c s) (devAddr s) data true (bus w) in
    STTS22H_setLimits s minTemp maxTemp isSetLimits w =
    (fst tr, s,
     mkWorld (snd tr)
       (issued w ++ [WriteTransfer (i2c s) (devAddr s) data true])).
Proof.
  intros Hi Hlo Hhi.
  assert (H1 : F32.ltb minTemp (F32.opp (F32.lit 395 10)) = false).
  { destruct Hlo as [-> | H]; [apply ltb_nan_l | now apply SFleb_not_SFltb]. }
  assert (H2 : F32.gtb maxTemp (F32.lit 1225 10) = false).
  { unfold F32.gtb. destruct Hhi as [-> | H].
    - apply ltb_nan_r.
    - now apply SFleb_not_SFltb. }
  driver_unfold. rewrite Hi, H1, H2. cbn [negb orb].
  destruct isSetLimits.
  - exists (calculateThreshold maxTemp), (calculateThreshold minTemp).
    cbn zeta. split_transfer. reflexivity.
  - exists 0, 0. cbn zeta. split_transfer. reflexivity.
Qed.

(** X8.  The connection check, the configuration write, the threshold
    write and the measurement trigger never change the cached
    temperature, status or connected flag: only an update does. *)
Theorem results_only_by_update
    (s : STTS22H_Def) (w : World Bus) (controlReg : Z)
    (minTemp maxTemp : F32.float) (isSetLimits : bool) :
  let cached (x : STTS22H_Def) := (temp x, status x, isConnected x) in
  cached (snd (fst (STTS22H_checkConnection s w))) = cached s /\
  cached (snd (fst (STTS22H_setting s controlReg w))) = cached s /\
  cached (snd (fst (STTS22H_setLimits s minTemp maxTemp isSetLimits w)))
    = cached s /\
  cached (snd (fst (STTS22H_measure s w))) = cached s.
Proof.
  intros cached. subst cached. driver_unfold.
  destruct (isInit s); cbn [negb]; [|repeat split; reflexivity].
  repeat split.
  - destruct (isReading s); [reflexivity|].
    split_transfer. destruct (_ =? I2C_SUCCESS); reflexivity.
  - split_transfer. destruct (_ =? I2C_SUCCESS); reflexivity.
  - destruct (_ || _); [reflexivity|]. split_transfer. reflexivity.
  - destruct (isReading s); [reflexivity|].
    split_transfer. destruct (_ =? I2C_SUCCESS); reflexivity.
Qed.

(** X9.  The cached control settings change only in the configuration
    write, and there only on an initialized device whose transport
    returned [I2C_SUCCESS]; initialization, the connection check, the
    threshold write and the measurement trigger keep them. *)
Theorem settings_only_by_setting
    (s : STTS22H_Def) (w : World Bus) (controlReg : Z)
    (minTemp maxTemp : F32.float) (isSetLimits : bool)
    (h : I2CDef_ptr) (addr : Z) :
  settings (snd (fst (STTS22H_setting s controlReg w)))
    = (if isInit s
          && (fst (I2C_writeData (i2c s) (devAddr s) [CTRL_ADDR; controlReg]
                     true (bus w)) =? I2C_SUCCESS)
       then controlReg else settings s) /\
  settings (snd (fst (STTS22H_checkConnection s w))) = settings s /\
  settings (snd (fst (STTS22H_setLimits s minTemp maxTemp isSetLimits w)))
    = settings s /\
  settings (snd (fst (STTS22H_measure s w))) = settings s /\
  (forall s', snd (fst (STTS22H_init (Some s) h addr w)) = Some s' ->
              settings s' = settings s).
Proof.
  driver_unfold.
  split; [| split; [| split; [| split]]].
  - destruct (isInit s); cbn [negb andb]; [|reflexivity].
    split_transfer. cbn [fst]. destruct (_ =? I2C_SUCCESS); reflexivity.
  - destruct (isInit s); cbn [negb]; [|reflexivity].
    destruct (isReading s); [reflexivity|].
    split_transfer. destruct (_ =? I2C_SUCCESS); reflexivity.
  - destruct (isInit s); cbn [negb]; [|reflexivity].
    destruct (_ || _); [reflexivity|]. split_transfer. reflexivity.
  - destruct (isInit s); cbn [negb]; [|reflexivity].
    destruct (isReading s); [reflexivity|].
    split_transfer. destruct (_ =? I2C_SUCCESS); reflexivity.
  - intros s' H. unfold STTS22H_init in H.
    destruct ((h =? NULL) || (addr =? 0)); cbn in H;
      injection H as <-; reflexivity.
Qed.

(** X10.  After a completed status read the two threshold accessors
    report bits 1 and 2 of the received status byte, whether or not its
    busy bit is set; the connected flag is kept. *)
Theorem status_flags_after_read
    (s : STTS22H_Def) (w : World Bus) (b0 b1 b2 : Z) (rest : list Z) :
  isInit s = true -> isReading s = true -> addrSent s = true ->
  regAddr s = STATUS_ADDR ->
  transport_idle (i2c s) (bus w) ->
  I2C_isFailed (i2c s) (bus w) = false ->
  I2C_getReceivedData (i2c s) (bus w) = b0 :: b1 :: b2 :: rest ->
  let s' := fst (STTS22H_update s w) in
  STTS22H_isOverheated s' = Z.testbit b0 1 /\
  STTS22H_isOvercooled s' = Z.testbit b0 2 /\
  STTS22H_isConnected s' = STTS22H_isConnected s.
Proof.
  intros Hi Hr Ha Hreg Hidle Hok Hrx s'. subst s'.
  rewrite update_completes_read by assumption.
  rewrite Hok, Hrx, decode_status by exact Hreg.
  destruct (status_busy b0); repeat split; reflexivity.
Qed.

(** X11.  Two updates that find the transport idle always end a
    transaction in flight, whatever its phase and whatever the transport
    answers: the device is no longer busy and the phase is clear. *)
Theorem transaction_ends_in_two_updates
    (s : STTS22H_Def) (issued0 : list Transfer) (b1 b2 : Bus) :
  isInit s = true -> isReading s = true ->
  transport_idle (i2c s) b1 -> transport_idle (i2c s) b2 ->
  let r1 := STTS22H_update s (mkWorld b1 issued0) in
  let r2 := STTS22H_update (fst r1) (mkWorld b2 (issued (snd r1))) in
  isReading (fst r2) = false /\ addrSent (fst r2) = false.
Proof.
  intros Hi Hr Hidle1 Hidle2 r1 r2. subst r2 r1.
  destruct (addrSent s) eqn:Ha.
  - rewrite (update_completes_read s) by assumption.
    cbn [fst snd bus].
    assert (Hdone :
              isReading
                (if I2C_isFailed (i2c s) b1
                 then set_isReading false (set_addrSent false s)
                 else decode (set_isReading false (set_addrSent false s))
                        (I2C_getReceivedData (i2c s) b1)) = false
              /\ addrSent
                   (if I2C_isFailed (i2c s) b1
                    then set_isReading false (set_addrSent false s)
                    else decode (set_isReading false (set_addrSent false s))
                           (I2C_getReceivedData (i2c s) b1)) = false).
    { destruct (I2C_isFailed (i2c s) b1); [split; reflexivity|].
      destruct (decode_frame (set_isReading false (set_addrSent false s))
                  (I2C_getReceivedData (i2c s) b1))
        as (_ & -> & -> & _).
      split; reflexivity. }
    destruct Hdone as [Hd1 Hd2].
    rewrite update_idle by exact Hd1. cbn [fst]. split; assumption.
  - rewrite (update_requests_read s) by assumption.
    cbn [fst snd bus issued].
    destruct (_ =? I2C_SUCCESS).
    + rewrite update_completes_read by (cbn; auto).
      cbn [fst bus i2c set_addrSent].
      destruct (I2C_isFailed (i2c s) b2); [split; reflexivity|].
      match goal with
      | |- context [decode ?a ?d] =>
          destruct (decode_frame a d) as (_ & -> & -> & _)
      end.
      split; reflexivity.
    + rewrite update_idle by reflexivity. cbn. split; [reflexivity|exact Ha].
Qed.

(** X12.  Every call requests at most one transfer: the four operations
    at most one write, to the device's own handle and address, and an
    update at most one read of the pending byte count, changing nothing
    of the world otherwise. *)
Theorem at_most_one_transfer_per_call
    (s : STTS22H_Def) (w : World Bus) (controlReg : Z)
    (minTemp maxTemp : F32.float) (isSetLimits : bool) :
  let writes (w' : World Bus) :=
    issued w' = issued w
    \/ exists bytes stop,
         issued w' = issued w
                     ++ [WriteTransfer (i2c s) (devAddr s) bytes stop] in
  writes (snd (STTS22H_checkConnection s w)) /\
  writes (snd (STTS22H_setting s controlReg w)) /\
  writes (snd (STTS22H_setLimits s minTemp maxTemp isSetLimits w)) /\
  writes (snd (STTS22H_measure s w)) /\
  (snd (STTS22H_update s w) = w
   \/ issued (snd (STTS22H_update s w))
      = issued w ++ [ReadTransfer (i2c s) (devAddr s) (dataSize s)]).
Proof.
  intros writes. subst writes. cbv beta. driver_unfold.
  destruct (isInit s); cbn [negb]; [|repeat split; left; reflexivity].
  split; [| split; [| split; [| split]]].
  - destruct (isReading s); [left; reflexivity|].
    split_transfer. right. eexists _, _.
    destruct (_ =? I2C_SUCCESS); reflexivity.
  - split_transfer. right. eexists _, _.
    destruct (_ =? I2C_SUCCESS); reflexivity.
  - destruct (_ || _); [left; reflexivity|].
    split_transfer. right. eexists _, _. reflexivity.
  - destruct (isReading s); [left; reflexivity|].
    split_transfer. right. eexists _, _.
    destruct (_ =? I2C_SUCCESS); reflexivity.
  - destruct (isReading s); cbn [negb]; [|left; reflexivity].
    destruct (_ || _); [left; reflexivity|].
    destruct (addrSent s).
    + destruct (I2C_isFailed _ _); left; reflexivity.
    + right. split_transfer. destruct (_ =? I2C_SUCCESS); reflexivity.
Qed.

(** X13.  An update changes the connected flag only for a pending
    identity register, and the temperature and status only for a pending
    status register; it never changes the pending register or the
    pending byte count. *)
Theorem update_decodes_by_register (s : STTS22H_Def) (w : World Bus) :
  let s' := fst (STTS22H_update s w) in
  (regAddr s <> WHOAMI_ADDR -> isConnected s' = isConnected s) /\
  (regAddr s <> STATUS_ADDR -> temp s' = temp s /\ status s' = status s) /\
  regAddr s' = regAddr s /\ dataSize s' = dataSize s.
Proof.
  intros s'. subst s'. driver_unfold.
  destruct (isInit s); cbn [negb]; [|tauto].
  destruct (isReading s); cbn [negb]; [|tauto].
  destruct (_ || _); [tauto|].
  destruct (addrSent s).
  - destruct (I2C_isFailed _ _); cbn [negb fst]; [cbn; tauto|].
    unfold decode. cbn [regAddr set_isReading set_addrSent].
    destruct (regAddr s =? WHOAMI_ADDR) eqn:E1.
    { apply Z.eqb_eq in E1. rewrite E1. cbn.
      repeat split; try reflexivity; congruence. }
    destruct (regAddr s =? TEMP_H_LIMIT_ADDR); [cbn; tauto|].
    destruct (regAddr s =? CTRL_ADDR); [cbn; tauto|].
    destruct (regAddr s =? STATUS_ADDR) eqn:E4.
    { apply Z.eqb_eq in E4.
      destruct (negb _); cbn; repeat split; try reflexivity; congruence. }
    destruct (regAddr s =? TEMP_L_OUT_ADDR); cbn; tauto.
  - split_transfer. destruct (_ =? I2C_SUCCESS); cbn; tauto.
Qed.

End MoreProperties.

(** ** Further properties of the conversions *)

(** A binary32 number is nearest to at most one hundredth count of 16
    bits. *)
Lemma nearest_to_hundredths_unique (raw raw' : Z) (f : F32.float) :
  - 32768 <= raw <= 32767 -> - 32768 <= raw' <= 32767 ->
  F32.nearest_to raw 100 f -> F32.nearest_to raw' 100 f -> raw = raw'.
Proof.
  intros Hr Hr'. unfold F32.nearest_to.
  destruct f as [s|s| |s m e]; try tauto.
  - intros -> ->. reflexivity.
  - intros (He & Hm & H) (_ & _ & H'). cbv zeta in H, H'.
    assert (Hp : 0 < 2 ^ (- e)) by (apply Z.pow_pos_nonneg; lia).
    change (2 ^ 23) with 8388608 in Hm.
    set (P := 2 ^ (- e)) in *.
    set (v := if s then - Z.pos m else Z.pos m) in *.
    assert (Hv : 8388608 <= v \/ v <= - 8388608) by (subst v; destruct s; lia).
    assert (Hb : -50 <= v * 100 - raw * P <= 50) by lia.
    assert (Hb' : -50 <= v * 100 - raw' * P <= 50) by lia.
    assert (Hrp : - 32768 * P <= raw * P <= 32768 * P) by nia.
    assert (HP : 128 <= P) by lia.
    assert (Hd : -100 <= (raw - raw') * P <= 100) by lia.
    nia.
Qed.

Lemma twos_complement16_range (raw : Z) :
  0 <= raw < 65536 -> - 32768 <= twos_complement16 raw <= 32767.
Proof.
  intros H. unfold twos_complement16.
  destruct (32768 <=? raw) eqn:E; [apply Z.leb_le in E | apply Z.leb_gt in E];
    lia.
Qed.

Lemma twos_complement16_inj (a b : Z) :
  0 <= a < 65536 -> 0 <= b < 65536 ->
  twos_complement16 a = twos_complement16 b -> a = b.
Proof.
  intros Ha Hb. unfold twos_complement16.
  destruct (32768 <=? a) eqn:Ea; destruct (32768 <=? b) eqn:Eb;
    try apply Z.leb_le in Ea; try apply Z.leb_gt in Ea;
    try apply Z.leb_le in Eb; try apply Z.leb_gt in Eb; lia.
Qed.

(** X15.  Decoding is injective: two pairs of register bytes that give
    the same temperature are the same pair. *)
Theorem calculateTemp_injective (h l h' l' : Z) :
  0 <= h < 256 -> 0 <= l < 256 -> 0 <= h' < 256 -> 0 <= l' < 256 ->
  calculateTemp h l = calculateTemp h' l' -> h = h' /\ l = l'.
Proof.
  intros Hh Hl Hh' Hl' Heq.
  destruct (calculateTemp_nearest h l Hh Hl) as [E N].
  destruct (calculateTemp_nearest h' l' Hh' Hl') as [E' N'].
  rewrite E in N. rewrite E' in N'. rewrite <- Heq in N'.
  assert (H : twos_complement16 (h * 256 + l)
              = twos_complement16 (h' * 256 + l')).
  { apply (nearest_to_hundredths_unique _ _ (calculateTemp h l));
      try assumption; apply twos_complement16_range; lia. }
  apply twos_complement16_inj in H; lia.
Qed.

Lemma all_from_true (check : Z -> bool) (n : nat) :
  forall k, all_from check k n = true ->
  forall i, k <= i < k + Z.of_nat n -> check i = true.
Proof.
  induction n as [|n IH]; intros k H i Hi; [lia|].
  cbn [all_from] in H. apply andb_true_iff in H as [H0 H1].
  destruct (Z.eq_dec i k) as [-> | Hne]; [exact H0|].
  apply (IH (k + 1) H1). lia.
Qed.

Lemma close_tob_sound (num den inv_tol : Z) (f : F32.float) :
  close_tob num den inv_tol f = true -> close_to num den inv_tol f.
Proof.
  destruct f as [s|s| |s m e]; cbn [close_tob close_to]; try discriminate.
  - apply Z.leb_le.
  - rewrite andb_true_iff, Z.ltb_lt, Z.leb_le. tauto.
Qed.

Lemma fahrenheit_check_all :
  all_from fahrenheit_check (-4000) (Z.to_nat 16501) = true.
Proof. vm_compute. reflexivity. Qed.

Lemma codes_from_all : codes_from 1 (-3950) (Z.to_nat 16201) = true.
Proof. vm_compute. reflexivity. Qed.

Lemma codes_from_true (n : nat) :
  forall prev k, codes_from prev k n = true ->
  forall i, k <= i < k + Z.of_nat n ->
  prev <= threshold_code i <= 254 /\
  64 * (threshold_code i - 63) <= i <= 64 * (threshold_code i - 63) + 64 /\
  forall j, i <= j < k + Z.of_nat n -> threshold_code i <= threshold_code j.
Proof.
  induction n as [|n IH]; intros prev k H i Hi; [lia|].
  cbn [codes_from] in H. cbv zeta in H.
  rewrite !andb_true_iff, !Z.leb_le in H.
  destruct H as ((((H1 & H2) & H3) & H4) & H5).
  destruct (Z.eq_dec i k) as [-> | Hne].
  - repeat split; try assumption.
    intros j Hj. destruct (Z.eq_dec j k) as [-> | Hjk]; [lia|].
    destruct (IH _ _ H5 j ltac:(lia)) as ((Hp & _) & _). exact Hp.
  - destruct (IH _ _ H5 i ltac:(lia)) as ((Hp & Hq) & Hb & Hm).
    split; [lia|]. split; [exact Hb|].
    intros j Hj. apply Hm. lia.
Qed.

Lemma threshold_code_is_code (k : Z) :
  1 <= threshold_code k <= 254 ->
  F32.trunc (threshold_sum (F32.lit k 100)) = Some (threshold_code k) /\
  calculateThreshold (F32.lit k 100) = threshold_code k.
Proof.
  unfold threshold_code, calculateThreshold, F32.to_uint8.
  change (F32.add (F32.div (F32.lit k 100) (F32.lit 64 100)) (F32.of_Z 63))
    with (threshold_sum (F32.lit k 100)).
  destruct (F32.trunc (threshold_sum (F32.lit k 100))) as [c|]; [|lia].
  intros H. split; [reflexivity|]. apply Z.mod_small. lia.
Qed.

Lemma bytes_of_twos_complement16 (h l : Z) :
  0 <= h < 256 -> 0 <= l < 256 ->
  let r := twos_complement16 (h * 256 + l) in
  r mod 65536 / 256 = h /\ r mod 256 = l.
Proof.
  intros Hh Hl r. subst r. unfold twos_complement16.
  destruct (32768 <=? h * 256 + l).
  - split.
    + replace ((h * 256 + l - 65536) mod 65536) with (h * 256 + l).
      * symmetry. apply (Z.div_unique_pos _ 256 h l); lia.
      * apply (Z.mod_unique_pos _ 65536 (-1)); lia.
    + symmetry. apply (Z.mod_unique_pos _ 256 (h - 256)); lia.
  - split.
    + rewrite Z.mod_small by lia.
      symmetry. apply (Z.div_unique_pos _ 256 h l); lia.
    + symmetry. apply (Z.mod_unique_pos _ 256 h); lia.
Qed.

(** X14.  For every register value within the sensor's operating range
    of -40.00 to 125.00 degrees Celsius, the Fahrenheit accessor on the
    decoded temperature is within 0.0001 of the exact
    [32 + 9/5 * celsius]. *)
Theorem fahrenheit_accuracy (s : STTS22H_Def) (h l : Z) :
  0 <= h < 256 -> 0 <= l < 256 ->
  - 4000 <= twos_complement16 (h * 256 + l) <= 12500 ->
  temp s = calculateTemp h l ->
  close_to (16000 + 9 * twos_complement16 (h * 256 + l)) 500 10000
    (STTS22H_getTemp_F s).
Proof.
  intros Hh Hl Hr Ht.
  pose proof (all_from_true _ _ _ fahrenheit_check_all
                (twos_complement16 (h * 256 + l)) ltac:(lia)) as H.
  unfold fahrenheit_check in H.
  destruct (bytes_of_twos_complement16 h l Hh Hl) as [E1 E2].
  rewrite E1, E2 in H.
  apply close_tob_sound in H.
  unfold STTS22H_getTemp_F in *. rewrite Ht. exact H.
Qed.

(** X16.  For every bound of two decimals within [-39.50, 122.50] the
    threshold sum does not overflow the byte: the code is the truncated
    sum, lies within 1..254, and its temperature [0.64 * (code - 63)] is
    at most the bound and at least the bound less one step of 0.64. *)
Theorem threshold_two_decimals (k : Z) :
  - 3950 <= k <= 12250 ->
  let c := calculateThreshold (F32.lit k 100) in
  F32.trunc (threshold_sum (F32.lit k 100)) = Some c /\
  1 <= c <= 254 /\
  64 * (c - 63) <= k <= 64 * (c - 63) + 64.
Proof.
  intros Hk c. subst c.
  destruct (codes_from_true _ _ _ codes_from_all k ltac:(lia))
    as (Hr & Hb & _).
  destruct (threshold_code_is_code k Hr) as [Ht ->].
  split; [exact Ht|]. split; assumption.
Qed.

(** X17.  Over the bounds of two decimals within [-39.50, 122.50] the
    threshold code is monotone: a lower bound never gets a larger
    code. *)
Theorem threshold_two_decimals_monotone (k k' : Z) :
  - 3950 <= k -> k <= k' -> k' <= 12250 ->
  calculateThreshold (F32.lit k 100) <= calculateThreshold (F32.lit k' 100).
Proof.
  intros H1 H2 H3.
  destruct (codes_from_true _ _ _ codes_from_all k ltac:(lia))
    as (Hr & _ & Hm).
  destruct (codes_from_true _ _ _ codes_from_all k' ltac:(lia))
    as (Hr' & _ & _).
  destruct (threshold_code_is_code k Hr) as [_ ->].
  destruct (threshold_code_is_code k' Hr') as [_ ->].
  apply Hm. lia.
Qed.

(** ** The further properties on the simulated transports *)

Lemma connection_check_end_to_end_witness :
  let b2 := Sim.bus_with [0xA0] in
  let r0 := STTS22H_checkConnection Sim.device Sim.idle_world in
  let r1 := STTS22H_update (snd (fst r0))
              (mkWorld Sim.idle_bus (issued (snd r0))) in
  let r2 := STTS22H_update (fst r1) (mkWorld b2 (issued (snd r1))) in
  Reachable Sim.device /\
  issued (snd r2)
    = issued Sim.idle_world
      ++ [WriteTransfer 1 0x3C [WHOAMI_ADDR] false; ReadTransfer 1 0x3C 1] /\
  isReading (fst r2) = false /\ addrSent (fst r2) = false /\
  STTS22H_isConnected (fst r2) = (0xA0 =? 0xA0) /\
  temp (fst r2) = temp Sim.device /\ status (fst r2) = status Sim.device.
Proof.
  intros b2 r0 r1 r2. split; [exact sim_device_reachable|].
  apply (connection_check_end_to_end Sim.device Sim.idle_world Sim.idle_bus
           b2 0xA0 []).
  - exact sim_device_reachable.
  - reflexivity.
  - reflexivity.
  - reflexivity.
  - split; reflexivity.
  - reflexivity.
  - split; reflexivity.
  - reflexivity.
  - reflexivity.
Defined.

Lemma update_does_nothing_witness :
  let w := mkWorld (Sim.mkSimBus true false false []) [] in
  I2C_isWriting (i2c Sim.measuring) (bus w) = true /\
  STTS22H_update Sim.measuring w = (Sim.measuring, w).
Proof.
  intros w. split; [reflexivity|].
  apply (update_does_nothing Sim.measuring w).
  right. right. reflexivity.
Defined.

Lemma Reachable_invariant_witness :
  Reachable Sim.measuring /\
  (isReading Sim.measuring = true -> isInit Sim.measuring = true) /\
  (addrSent Sim.measuring = true -> isReading Sim.measuring = true) /\
  (isReading Sim.measuring = true ->
   (regAddr Sim.measuring = WHOAMI_ADDR /\ dataSize Sim.measuring = 1)
   \/ (regAddr Sim.measuring = STATUS_ADDR /\ dataSize Sim.measuring = 3)).
Proof.
  split; [exact sim_measuring_reachable|].
  exact (Reachable_invariant Sim.measuring sim_measuring_reachable).
Defined.

Lemma read_request_refused_witness :
  fst (I2C_readData (I2C := Nak.transport) (i2c Sim.measuring)
         (devAddr Sim.measuring) (dataSize Sim.measuring) (bus Nak.world))
    <> I2C_SUCCESS (I2C := Nak.transport) /\
  fst (STTS22H_update (transport := Nak.transport) Sim.measuring Nak.world)
    = set_isReading false Sim.measuring /\
  issued (snd (STTS22H_update (transport := Nak.transport) Sim.measuring
                 Nak.world))
    = [ReadTransfer 1 0x3C 3].
Proof.
  assert (H : fst (I2C_readData (I2C := Nak.transport) (i2c Sim.measuring)
                     (devAddr Sim.measuring) (dataSize Sim.measuring)
                     (bus Nak.world))
              <> I2C_SUCCESS (I2C := Nak.transport)) by discriminate.
  split; [exact H|].
  exact (read_request_refused (transport := Nak.transport) Sim.measuring
           Nak.world eq_refl eq_refl eq_refl (conj eq_refl eq_refl) H).
Defined.

Lemma trigger_refused_witness :
  let rm := STTS22H_measure (transport := Nak.transport) Sim.device
              Nak.world in
  let rc := STTS22H_checkConnection (transport := Nak.transport) Sim.device
              Nak.world in
  fst (fst rm) = Nak.ERROR_NACK /\
  snd (fst rm) = set_dataSize 3 (set_regAddr STATUS_ADDR Sim.device) /\
  fst (fst rc) = Nak.ERROR_NACK /\
  snd (fst rc) = set_dataSize 1 (set_regAddr WHOAMI_ADDR Sim.device).
Proof.
  apply (trigger_refused (transport := Nak.transport) Sim.device Nak.world).
  - reflexivity.
  - reflexivity.
  - intros reg. discriminate.
Defined.

Lemma setLimits_disable_witness :
  isInit Sim.device = true /\
  STTS22H_setLimits Sim.device (F32.of_Z (-100)) (F32.of_Z 0) false
      Sim.idle_world
    = (STTS22H_WRONG_DATA, Sim.device, Sim.idle_world) /\
  STTS22H_setLimits Sim.device (F32.of_Z 100) (F32.of_Z 0) false
      Sim.idle_world
    = (0, Sim.device,
       mkWorld (Sim.mkSimBus true false false [])
         [WriteTransfer 1 0x3C [TEMP_H_LIMIT_ADDR; 0; 0] true]).
Proof.
  split; [reflexivity|]. split.
  - apply (proj1 (setLimits_disable Sim.device Sim.idle_world
                    (F32.of_Z (-100)) (F32.of_Z 0) eq_refl)).
    left. reflexivity.
  - exact (proj2 (setLimits_disable Sim.device Sim.idle_world
                    (F32.of_Z 100) (F32.of_Z 0) eq_refl) eq_refl eq_refl).
Defined.

Lemma limits_one_sided_witness :
  F32.ltb (F32.lit 1225 10) (F32.of_Z 1000) = true /\
  exists hi lo,
    STTS22H_setLimits Sim.device (F32.of_Z 1000) S754_nan true Sim.idle_world
    = (0, Sim.device,
       mkWorld (Sim.mkSimBus true false false [])
         [WriteTransfer 1 0x3C [TEMP_H_LIMIT_ADDR; hi; lo] true]).
Proof.
  split; [reflexivity|].
  exact (limits_one_sided Sim.device Sim.idle_world (F32.of_Z 1000) S754_nan
           true eq_refl (or_intror eq_refl) (or_introl eq_refl)).
Defined.

Lemma settings_only_by_setting_witness :
  settings (snd (fst (STTS22H_setting Sim.device 0x0C Sim.idle_world))) = 0x0C
  /\ settings (snd (fst (STTS22H_setting (transport := Nak.transport)
                           Sim.device 0x0C Nak.world)))
     = settings Sim.device.
Proof.
  split.
  - exact (proj1 (settings_only_by_setting Sim.device Sim.idle_world 0x0C
                    (F32.of_Z 0) (F32.of_Z 0) true 1 0x3C)).
  - exact (proj1 (settings_only_by_setting (transport := Nak.transport)
                    Sim.device Nak.world 0x0C (F32.of_Z 0) (F32.of_Z 0) true
                    1 0x3C)).
Defined.

Lemma status_flags_after_read_witness :
  let w := mkWorld (Sim.bus_with [0x03; 0x90; 0x01]) [] in
  let s' := fst (STTS22H_update Sim.reading_back w) in
  I2C_getReceivedData (i2c Sim.reading_back) (bus w) = [0x03; 0x90; 0x01] /\
  STTS22H_isOverheated s' = true /\
  STTS22H_isOvercooled s' = false /\
  STTS22H_isConnected s' = STTS22H_isConnected Sim.reading_back.
Proof.
  intros w s'. split; [reflexivity|].
  apply (status_flags_after_read Sim.reading_back w 0x03 0x90 0x01 []).
  - reflexivity.
  - reflexivity.
  - reflexivity.
  - reflexivity.
  - split; reflexivity.
  - reflexivity.
  - reflexivity.
Defined.

Lemma transaction_ends_in_two_updates_witness :
  let r1 := STTS22H_update Sim.measuring (mkWorld Sim.idle_bus []) in
  let r2 := STTS22H_update (fst r1)
              (mkWorld Sim.failed_bus (issued (snd r1))) in
  isReading Sim.measuring = true /\
  isReading (fst r2) = false /\ addrSent (fst r2) = false.
Proof.
  intros r1 r2. split; [reflexivity|].
  apply (transaction_ends_in_two_updates Sim.measuring [] Sim.idle_bus
           Sim.failed_bus).
  - reflexivity.
  - reflexivity.
  - split; reflexivity.
  - split; reflexivity.
Defined.

Lemma update_decodes_by_register_witness :
  let w := mkWorld (Sim.bus_with [0x00; 0x90; 0x01]) [] in
  let s' := fst (STTS22H_update Sim.reading_back w) in
  regAddr Sim.reading_back <> WHOAMI_ADDR /\
  isConnected s' = isConnected Sim.reading_back.
Proof.
  intros w s'.
  assert (H : regAddr Sim.reading_back <> WHOAMI_ADDR) by discriminate.
  split; [exact H|].
  exact (proj1 (update_decodes_by_register Sim.reading_back w) H).
Defined.

Lemma fahrenheit_accuracy_witness :
  let s := set_temp (calculateTemp 0x01 0x90) Sim.zeroed in
  twos_complement16 (0x01 * 256 + 0x90) = 400 /\
  close_to (16000 + 9 * twos_complement16 (0x01 * 256 + 0x90)) 500 10000
    (STTS22H_getTemp_F s).
Proof.
  intros s. split; [reflexivity|].
  apply (fahrenheit_accuracy s 0x01 0x90).
  - lia.
  - lia.
  - vm_compute. split; discriminate.
  - reflexivity.
Defined.

Lemma calculateTemp_injective_witness :
  calculateTemp 0x01 0x90 = calculateTemp 0x01 0x90 /\
  0x01 = 0x01 /\ 0x90 = 0x90.
Proof.
  split; [reflexivity|].
  apply (calculateTemp_injective 0x01 0x90 0x01 0x90); try lia.
  reflexivity.
Defined.

Lemma threshold_two_decimals_witness :
  - 3950 <= 2500 <= 12250 /\
  F32.trunc (threshold_sum (F32.lit 2500 100))
    = Some (calculateThreshold (F32.lit 2500 100)) /\
  1 <= calculateThreshold (F32.lit 2500 100) <= 254 /\
  64 * (calculateThreshold (F32.lit 2500 100) - 63) <= 2500
    <= 64 * (calculateThreshold (F32.lit 2500 100) - 63) + 64.
Proof.
  assert (H : - 3950 <= 2500 <= 12250) by lia.
  split; [exact H|].
  exact (threshold_two_decimals 2500 H).
Defined.

Lemma threshold_two_decimals_monotone_witness :
  - 3950 <= - 1000 /\ - 1000 <= 2500 /\ 2500 <= 12250 /\
  calculateThreshold (F32.lit (- 1000) 100)
    <= calculateThreshold (F32.lit 2500 100).
Proof.
  assert (H1 : - 3950 <= - 1000) by lia.
  assert (H2 : - 1000 <= 2500) by lia.
  assert (H3 : 2500 <= 12250) by lia.
  repeat (split; [assumption|]).
  exact (threshold_two_decimals_monotone (- 1000) 2500 H1 H2 H3).
Defined.
